(** * usrp_echotimer_dual_cw_rcs: the dual-tone CW echo-timer flow graph

    A shallow embedding of [usrp_echotimer_dual_cw_rcs.py]: the variables of
    the top block, the parameters handed to the blocks it instantiates, its
    constructor and its getters and setters.  Python's [float] is IEEE-754
    binary64, which is the format of Rocq's primitive floats; Python's [int]
    is [Z]. *)

From Stdlib Require Import ZArith List String Bool Lia Floats Ring_theory.
Import ListNotations.

Open Scope Z_scope.

(* Decimal literals denote the nearest binary64 value, as in Python. *)
Set Warnings "-inexact-float".

(** ** Python numbers and their arithmetic *)

Inductive exn := ZeroDivisionError | OverflowError | ValueError.

Inductive result (A : Type) : Type :=
| Ok (a : A)
| Err (e : exn).
Arguments Ok {A} a.
Arguments Err {A} e.

Definition rbind {A B} (r : result A) (k : A -> result B) : result B :=
  match r with
  | Ok a => k a
  | Err e => Err e
  end.

Declare Scope result_scope.
Delimit Scope result_scope with result.
Notation "x <- r ;; k" := (rbind r (fun x => k))
  (at level 61, r at next level, right associativity) : result_scope.

(** A Python number: an [int] of any size or a binary64 [float]. *)
Inductive num := Int (z : Z) | Float (f : float).

(** The binary64 float nearest to an integer (ties to even); an integer
    beyond the largest finite float rounds to [infinity]. *)
Definition float_of_Z (z : Z) : float :=
  SF2Prim (binary_normalize prec emax z 0 false).

(** [float(x)]; also the conversion Python applies to the [int] operand of
    mixed arithmetic.  "int too large to convert to float" is [OverflowError]. *)
Definition py_float (x : num) : result float :=
  match x with
  | Float f => Ok f
  | Int z =>
      let f := float_of_Z z in
      if is_infinity f then Err OverflowError else Ok f
  end.

(** Integer part of a finite float, rounded towards zero. *)
Definition trunc_SF (x : spec_float) : option Z :=
  match x with
  | S754_zero _ => Some 0
  | S754_finite s m e =>
      let a := if 0 <=? e then Z.shiftl (Zpos m) e else Z.shiftr (Zpos m) (- e) in
      Some (if s then - a else a)
  | S754_infinity _ => None
  | S754_nan => None
  end.

(** [int(x)]: truncation; [int(nan)] is [ValueError], [int(inf)] is
    [OverflowError]. *)
Definition py_int (x : num) : result Z :=
  match x with
  | Int z => Ok z
  | Float f =>
      match trunc_SF (Prim2SF f) with
      | Some z => Ok z
      | None => if is_nan f then Err ValueError else Err OverflowError
      end
  end.

(** [a * b] and [a - b]: exact on two ints, binary64 otherwise. *)
Definition mul (a b : num) : result num :=
  match a, b with
  | Int x, Int y => Ok (Int (x * y))
  | _, _ => (x <- py_float a ;; y <- py_float b ;; Ok (Float (x * y)))%result
  end.

Definition sub (a b : num) : result num :=
  match a, b with
  | Int x, Int y => Ok (Int (x - y))
  | _, _ => (x <- py_float a ;; y <- py_float b ;; Ok (Float (x - y)))%result
  end.

(** [a / b] where at least one operand is a float, which is the case of every
    [/] of the flow graph (its operands are float literals, [float(...)] calls
    or float products): the other operand is converted and the quotient is the
    binary64 one; a zero divisor, of either sign, is [ZeroDivisionError]. *)
Definition truediv (a b : num) : result num :=
  (x <- py_float a ;;
   y <- py_float b ;;
   if is_zero y then Err ZeroDivisionError else Ok (Float (x / y)))%result.

(** [a // b] on two ints: floor division. *)
Definition floordiv (a b : Z) : result Z :=
  if b =? 0 then Err ZeroDivisionError else Ok (a / b).

(** ** The derived quantities

    The expressions the constructor and the setters evaluate, written once. *)

Section Derived.
Local Open Scope result_scope.

(** [samp_rate/float(packet_len)] *)
Definition freq_res_expr (samp_rate packet_len : num) : result num :=
  p <- py_float packet_len ;; truediv samp_rate (Float p).

(** [packet_len/float(samp_rate)] *)
Definition time_res_expr (samp_rate packet_len : num) : result num :=
  r <- py_float samp_rate ;; truediv packet_len (Float r).

(** [freq_res*3e8/2/center_freq] *)
Definition v_res_expr (freq_res center_freq : num) : result num :=
  a <- mul freq_res (Float 3e8) ;;
  b <- truediv a (Int 2) ;;
  truediv b center_freq.

(** [(3e8/2/float((freq[1]-freq[0])))] *)
Definition range_res_expr (freq : num * num) : result num :=
  a <- truediv (Float 3e8) (Int 2) ;;
  d <- sub (snd freq) (fst freq) ;;
  f <- py_float d ;;
  truediv a (Float f).

(** [int(packet_len*2)] *)
Definition min_output_buffer_expr (packet_len : num) : result Z :=
  a <- mul packet_len (Int 2) ;; py_int a.

(** [1.0/float(decim_fac)] *)
Definition scalar_expr (decim_fac : num) : result num :=
  d <- py_float decim_fac ;; truediv (Float 1.0) (Float d).
End Derived.

(** ** The blocks of the flow graph

    A block is the record of the arguments its constructor receives; the
    methods the flow graph calls on a running block replace one of them. *)

(** [filter.rational_resampler_ccc(interpolation, decimation, taps, fractional_bw)];
    both [taps] and [fractional_bw] are [None]. *)
Record rational_resampler_ccc := {
  rr_interpolation : Z;
  rr_decimation : Z
}.

(** One USRP of the echo timer (its transmit or its receive half). *)
Record usrp_args := {
  u_args : string;
  u_wire : string;
  u_clock_source : string;
  u_time_source : string;
  u_antenna : string;
  u_gain : num;
  u_timeout : float;
  u_wait : float;
  u_lo_offset : Z
}.

Definition with_u_gain (g : num) (u : usrp_args) : usrp_args :=
  {| u_args := u_args u; u_wire := u_wire u; u_clock_source := u_clock_source u;
     u_time_source := u_time_source u; u_antenna := u_antenna u; u_gain := g;
     u_timeout := u_timeout u; u_wait := u_wait u; u_lo_offset := u_lo_offset u |}.

(** [radar.usrp_echotimer_cc] *)
Record usrp_echotimer_cc := {
  et_samp_rate : Z;
  et_center_freq : float;
  et_num_delay_samps : Z;
  et_tx : usrp_args;
  et_rx : usrp_args;
  et_len_key : string
}.

Definition set_tx_gain (g : num) (b : usrp_echotimer_cc) : usrp_echotimer_cc :=
  {| et_samp_rate := et_samp_rate b; et_center_freq := et_center_freq b;
     et_num_delay_samps := et_num_delay_samps b; et_tx := with_u_gain g (et_tx b);
     et_rx := et_rx b; et_len_key := et_len_key b |}.

Definition set_rx_gain (g : num) (b : usrp_echotimer_cc) : usrp_echotimer_cc :=
  {| et_samp_rate := et_samp_rate b; et_center_freq := et_center_freq b;
     et_num_delay_samps := et_num_delay_samps b; et_tx := et_tx b;
     et_rx := with_u_gain g (et_rx b); et_len_key := et_len_key b |}.

Definition set_num_delay_samps (n : Z) (b : usrp_echotimer_cc) : usrp_echotimer_cc :=
  {| et_samp_rate := et_samp_rate b; et_center_freq := et_center_freq b;
     et_num_delay_samps := n; et_tx := et_tx b;
     et_rx := et_rx b; et_len_key := et_len_key b |}.

(** [radar.ts_fft_cc(packet_len, len_key)] *)
Record ts_fft_cc := {
  fft_packet_len : Z;
  fft_len_key : string
}.

(** [radar.signal_generator_cw_c(packet_len, samp_rate, frequency, amplitude, len_key)] *)
Record signal_generator_cw_c := {
  sg_packet_len : Z;
  sg_samp_rate : Z;
  sg_frequency : list Z;
  sg_amplitude : float;
  sg_len_key : string
}.

(** [radar.qtgui_time_plot(interval, label_y, axis_y, range_time, label)] *)
Record qtgui_time_plot := {
  tp_interval : Z;
  tp_label_y : string;
  tp_axis_y : list num;
  tp_range_time : Z;
  tp_label : string
}.

(** [radar.find_max_peak_c(samp_rate, threshold, samp_protect, max_freq,
    cut_max_freq, len_key)]: [threshold] is the magnitude threshold,
    [samp_protect] the guard width and [max_freq] the search window. *)
Record find_max_peak_c := {
  fp_samp_rate : Z;
  fp_threshold : num;
  fp_samp_protect : Z;
  fp_max_freq : list Z;
  fp_cut_max_freq : bool;
  fp_len_key : string
}.

Definition fp_set_threshold (t : num) (b : find_max_peak_c) : find_max_peak_c :=
  {| fp_samp_rate := fp_samp_rate b; fp_threshold := t;
     fp_samp_protect := fp_samp_protect b; fp_max_freq := fp_max_freq b;
     fp_cut_max_freq := fp_cut_max_freq b; fp_len_key := fp_len_key b |}.

Definition fp_set_samp_protect (n : Z) (b : find_max_peak_c) : find_max_peak_c :=
  {| fp_samp_rate := fp_samp_rate b; fp_threshold := fp_threshold b;
     fp_samp_protect := n; fp_max_freq := fp_max_freq b;
     fp_cut_max_freq := fp_cut_max_freq b; fp_len_key := fp_len_key b |}.

(** [radar.estimator_fsk(center_freq, delta_freq, push_power)] *)
Record estimator_fsk := {
  ef_center_freq : float;
  ef_delta_freq : Z;
  ef_push_power : bool
}.

(** [blocks.tagged_stream_multiply_length(itemsize, lengthtagname, scalar)] *)
Record tagged_stream_multiply_length := {
  ml_itemsize : Z;
  ml_lengthtagname : string;
  ml_scalar : num
}.

Definition set_scalar (c : num) (b : tagged_stream_multiply_length)
  : tagged_stream_multiply_length :=
  {| ml_itemsize := ml_itemsize b; ml_lengthtagname := ml_lengthtagname b;
     ml_scalar := c |}.

Definition sizeof_gr_complex : Z := 8.

(** The blocks with parameters, under the names the top block gives them.
    ([blocks_multiply_conjugate_cc_0], [_0_0], [_1] and [blocks_add_xx_1] take
    the vector length 1 and nothing else.) *)
Record flowgraph := {
  rational_resampler_xxx_0_0 : rational_resampler_ccc;
  rational_resampler_xxx_0 : rational_resampler_ccc;
  radar_usrp_echotimer_cc_0 : usrp_echotimer_cc;
  radar_ts_fft_cc_0_0 : ts_fft_cc;
  radar_ts_fft_cc_0 : ts_fft_cc;
  radar_signal_generator_cw_c_0_0 : signal_generator_cw_c;
  radar_signal_generator_cw_c_0 : signal_generator_cw_c;
  radar_qtgui_time_plot_0 : qtgui_time_plot;
  radar_find_max_peak_c_0 : find_max_peak_c;
  radar_estimator_fsk_0 : estimator_fsk;
  blocks_tagged_stream_multiply_length_0_0 : tagged_stream_multiply_length;
  blocks_tagged_stream_multiply_length_0 : tagged_stream_multiply_length
}.

Definition with_echotimer (f : usrp_echotimer_cc -> usrp_echotimer_cc) (g : flowgraph)
  : flowgraph :=
  {| rational_resampler_xxx_0_0 := rational_resampler_xxx_0_0 g;
     rational_resampler_xxx_0 := rational_resampler_xxx_0 g;
     radar_usrp_echotimer_cc_0 := f (radar_usrp_echotimer_cc_0 g);
     radar_ts_fft_cc_0_0 := radar_ts_fft_cc_0_0 g;
     radar_ts_fft_cc_0 := radar_ts_fft_cc_0 g;
     radar_signal_generator_cw_c_0_0 := radar_signal_generator_cw_c_0_0 g;
     radar_signal_generator_cw_c_0 := radar_signal_generator_cw_c_0 g;
     radar_qtgui_time_plot_0 := radar_qtgui_time_plot_0 g;
     radar_find_max_peak_c_0 := radar_find_max_peak_c_0 g;
     radar_estimator_fsk_0 := radar_estimator_fsk_0 g;
     blocks_tagged_stream_multiply_length_0_0 := blocks_tagged_stream_multiply_length_0_0 g;
     blocks_tagged_stream_multiply_length_0 := blocks_tagged_stream_multiply_length_0 g |}.

Definition with_find_max_peak (f : find_max_peak_c -> find_max_peak_c) (g : flowgraph)
  : flowgraph :=
  {| rational_resampler_xxx_0_0 := rational_resampler_xxx_0_0 g;
     rational_resampler_xxx_0 := rational_resampler_xxx_0 g;
     radar_usrp_echotimer_cc_0 := radar_usrp_echotimer_cc_0 g;
     radar_ts_fft_cc_0_0 := radar_ts_fft_cc_0_0 g;
     radar_ts_fft_cc_0 := radar_ts_fft_cc_0 g;
     radar_signal_generator_cw_c_0_0 := radar_signal_generator_cw_c_0_0 g;
     radar_signal_generator_cw_c_0 := radar_signal_generator_cw_c_0 g;
     radar_qtgui_time_plot_0 := radar_qtgui_time_plot_0 g;
     radar_find_max_peak_c_0 := f (radar_find_max_peak_c_0 g);
     radar_estimator_fsk_0 := radar_estimator_fsk_0 g;
     blocks_tagged_stream_multiply_length_0_0 := blocks_tagged_stream_multiply_length_0_0 g;
     blocks_tagged_stream_multiply_length_0 := blocks_tagged_stream_multiply_length_0 g |}.

Definition with_multiply_length_0
  (f : tagged_stream_multiply_length -> tagged_stream_multiply_length) (g : flowgraph)
  : flowgraph :=
  {| rational_resampler_xxx_0_0 := rational_resampler_xxx_0_0 g;
     rational_resampler_xxx_0 := rational_resampler_xxx_0 g;
     radar_usrp_echotimer_cc_0 := radar_usrp_echotimer_cc_0 g;
     radar_ts_fft_cc_0_0 := radar_ts_fft_cc_0_0 g;
     radar_ts_fft_cc_0 := radar_ts_fft_cc_0 g;
     radar_signal_generator_cw_c_0_0 := radar_signal_generator_cw_c_0_0 g;
     radar_signal_generator_cw_c_0 := radar_signal_generator_cw_c_0 g;
     radar_qtgui_time_plot_0 := radar_qtgui_time_plot_0 g;
     radar_find_max_peak_c_0 := radar_find_max_peak_c_0 g;
     radar_estimator_fsk_0 := radar_estimator_fsk_0 g;
     blocks_tagged_stream_multiply_length_0_0 := blocks_tagged_stream_multiply_length_0_0 g;
     blocks_tagged_stream_multiply_length_0 := f (blocks_tagged_stream_multiply_length_0 g) |}.

Definition with_multiply_length_0_0
  (f : tagged_stream_multiply_length -> tagged_stream_multiply_length) (g : flowgraph)
  : flowgraph :=
  {| rational_resampler_xxx_0_0 := rational_resampler_xxx_0_0 g;
     rational_resampler_xxx_0 := rational_resampler_xxx_0 g;
     radar_usrp_echotimer_cc_0 := radar_usrp_echotimer_cc_0 g;
     radar_ts_fft_cc_0_0 := radar_ts_fft_cc_0_0 g;
     radar_ts_fft_cc_0 := radar_ts_fft_cc_0 g;
     radar_signal_generator_cw_c_0_0 := radar_signal_generator_cw_c_0_0 g;
     radar_signal_generator_cw_c_0 := radar_signal_generator_cw_c_0 g;
     radar_qtgui_time_plot_0 := radar_qtgui_time_plot_0 g;
     radar_find_max_peak_c_0 := radar_find_max_peak_c_0 g;
     radar_estimator_fsk_0 := radar_estimator_fsk_0 g;
     blocks_tagged_stream_multiply_length_0_0 := f (blocks_tagged_stream_multiply_length_0_0 g);
     blocks_tagged_stream_multiply_length_0 := blocks_tagged_stream_multiply_length_0 g |}.

(** ** The top block

    Its variables, as the attributes [self.samp_rate], [self.packet_len], ...
    of the Python object, and its blocks. *)

Record variables := {
  samp_rate : num;
  packet_len : num;
  freq_res : num;
  freq : num * num;
  center_freq : num;
  v_res : num;
  time_res : num;
  threshold : num;
  samp_protect : num;
  range_time : num;
  range_res : num;
  min_output_buffer : num;
  max_output_buffer : num;
  gain_tx : num;
  gain_rx : num;
  delay_samp : num;
  decim_fac : num;
  amplitude : num
}.

Record top_block := {
  vars : variables;
  graph : flowgraph
}.

(** [self.x = v], one per attribute. *)
Definition assign_samp_rate (v : num) (a : variables) : variables :=
  {| samp_rate := v; packet_len := packet_len a; freq_res := freq_res a;
     freq := freq a; center_freq := center_freq a; v_res := v_res a;
     time_res := time_res a; threshold := threshold a; samp_protect := samp_protect a;
     range_time := range_time a; range_res := range_res a;
     min_output_buffer := min_output_buffer a;
     max_output_buffer := max_output_buffer a; gain_tx := gain_tx a;
     gain_rx := gain_rx a; delay_samp := delay_samp a; decim_fac := decim_fac a;
     amplitude := amplitude a |}.

Definition assign_packet_len (v : num) (a : variables) : variables :=
  {| samp_rate := samp_rate a; packet_len := v; freq_res := freq_res a; freq := freq a;
     center_freq := center_freq a; v_res := v_res a; time_res := time_res a;
     threshold := threshold a; samp_protect := samp_protect a;
     range_time := range_time a; range_res := range_res a;
     min_output_buffer := min_output_buffer a;
     max_output_buffer := max_output_buffer a; gain_tx := gain_tx a;
     gain_rx := gain_rx a; delay_samp := delay_samp a; decim_fac := decim_fac a;
     amplitude := amplitude a |}.

Definition assign_freq_res (v : num) (a : variables) : variables :=
  {| samp_rate := samp_rate a; packet_len := packet_len a; freq_res := v;
     freq := freq a; center_freq := center_freq a; v_res := v_res a;
     time_res := time_res a; threshold := threshold a; samp_protect := samp_protect a;
     range_time := range_time a; range_res := range_res a;
     min_output_buffer := min_output_buffer a;
     max_output_buffer := max_output_buffer a; gain_tx := gain_tx a;
     gain_rx := gain_rx a; delay_samp := delay_samp a; decim_fac := decim_fac a;
     amplitude := amplitude a |}.

Definition assign_freq (v : num * num) (a : variables) : variables :=
  {| samp_rate := samp_rate a; packet_len := packet_len a; freq_res := freq_res a;
     freq := v; center_freq := center_freq a; v_res := v_res a; time_res := time_res a;
     threshold := threshold a; samp_protect := samp_protect a;
     range_time := range_time a; range_res := range_res a;
     min_output_buffer := min_output_buffer a;
     max_output_buffer := max_output_buffer a; gain_tx := gain_tx a;
     gain_rx := gain_rx a; delay_samp := delay_samp a; decim_fac := decim_fac a;
     amplitude := amplitude a |}.

Definition assign_center_freq (v : num) (a : variables) : variables :=
  {| samp_rate := samp_rate a; packet_len := packet_len a; freq_res := freq_res a;
     freq := freq a; center_freq := v; v_res := v_res a; time_res := time_res a;
     threshold := threshold a; samp_protect := samp_protect a;
     range_time := range_time a; range_res := range_res a;
     min_output_buffer := min_output_buffer a;
     max_output_buffer := max_output_buffer a; gain_tx := gain_tx a;
     gain_rx := gain_rx a; delay_samp := delay_samp a; decim_fac := decim_fac a;
     amplitude := amplitude a |}.

Definition assign_v_res (v : num) (a : variables) : variables :=
  {| samp_rate := samp_rate a; packet_len := packet_len a; freq_res := freq_res a;
     freq := freq a; center_freq := center_freq a; v_res := v; time_res := time_res a;
     threshold := threshold a; samp_protect := samp_protect a;
     range_time := range_time a; range_res := range_res a;
     min_output_buffer := min_output_buffer a;
     max_output_buffer := max_output_buffer a; gain_tx := gain_tx a;
     gain_rx := gain_rx a; delay_samp := delay_samp a; decim_fac := decim_fac a;
     amplitude := amplitude a |}.

Definition assign_time_res (v : num) (a : variables) : variables :=
  {| samp_rate := samp_rate a; packet_len := packet_len a; freq_res := freq_res a;
     freq := freq a; center_freq := center_freq a; v_res := v_res a; time_res := v;
     threshold := threshold a; samp_protect := samp_protect a;
     range_time := range_time a; range_res := range_res a;
     min_output_buffer := min_output_buffer a;
     max_output_buffer := max_output_buffer a; gain_tx := gain_tx a;
     gain_rx := gain_rx a; delay_samp := delay_samp a; decim_fac := decim_fac a;
     amplitude := amplitude a |}.

Definition assign_threshold (v : num) (a : variables) : variables :=
  {| samp_rate := samp_rate a; packet_len := packet_len a; freq_res := freq_res a;
     freq := freq a; center_freq := center_freq a; v_res := v_res a;
     time_res := time_res a; threshold := v; samp_protect := samp_protect a;
     range_time := range_time a; range_res := range_res a;
     min_output_buffer := min_output_buffer a;
     max_output_buffer := max_output_buffer a; gain_tx := gain_tx a;
     gain_rx := gain_rx a; delay_samp := delay_samp a; decim_fac := decim_fac a;
     amplitude := amplitude a |}.

Definition assign_samp_protect (v : num) (a : variables) : variables :=
  {| samp_rate := samp_rate a; packet_len := packet_len a; freq_res := freq_res a;
     freq := freq a; center_freq := center_freq a; v_res := v_res a;
     time_res := time_res a; threshold := threshold a; samp_protect := v;
     range_time := range_time a; range_res := range_res a;
     min_output_buffer := min_output_buffer a;
     max_output_buffer := max_output_buffer a; gain_tx := gain_tx a;
     gain_rx := gain_rx a; delay_samp := delay_samp a; decim_fac := decim_fac a;
     amplitude := amplitude a |}.

Definition assign_range_time (v : num) (a : variables) : variables :=
  {| samp_rate := samp_rate a; packet_len := packet_len a; freq_res := freq_res a;
     freq := freq a; center_freq := center_freq a; v_res := v_res a;
     time_res := time_res a; threshold := threshold a; samp_protect := samp_protect a;
     range_time := v; range_res := range_res a;
     min_output_buffer := min_output_buffer a;
     max_output_buffer := max_output_buffer a; gain_tx := gain_tx a;
     gain_rx := gain_rx a; delay_samp := delay_samp a; decim_fac := decim_fac a;
     amplitude := amplitude a |}.

Definition assign_range_res (v : num) (a : variables) : variables :=
  {| samp_rate := samp_rate a; packet_len := packet_len a; freq_res := freq_res a;
     freq := freq a; center_freq := center_freq a; v_res := v_res a;
     time_res := time_res a; threshold := threshold a; samp_protect := samp_protect a;
     range_time := range_time a; range_res := v;
     min_output_buffer := min_output_buffer a;
     max_output_buffer := max_output_buffer a; gain_tx := gain_tx a;
     gain_rx := gain_rx a; delay_samp := delay_samp a; decim_fac := decim_fac a;
     amplitude := amplitude a |}.

Definition assign_min_output_buffer (v : num) (a : variables) : variables :=
  {| samp_rate := samp_rate a; packet_len := packet_len a; freq_res := freq_res a;
     freq := freq a; center_freq := center_freq a; v_res := v_res a;
     time_res := time_res a; threshold := threshold a; samp_protect := samp_protect a;
     range_time := range_time a; range_res := range_res a; min_output_buffer := v;
     max_output_buffer := max_output_buffer a; gain_tx := gain_tx a;
     gain_rx := gain_rx a; delay_samp := delay_samp a; decim_fac := decim_fac a;
     amplitude := amplitude a |}.

Definition assign_max_output_buffer (v : num) (a : variables) : variables :=
  {| samp_rate := samp_rate a; packet_len := packet_len a; freq_res := freq_res a;
     freq := freq a; center_freq := center_freq a; v_res := v_res a;
     time_res := time_res a; threshold := threshold a; samp_protect := samp_protect a;
     range_time := range_time a; range_res := range_res a;
     min_output_buffer := min_output_buffer a; max_output_buffer := v;
     gain_tx := gain_tx a; gain_rx := gain_rx a; delay_samp := delay_samp a;
     decim_fac := decim_fac a; amplitude := amplitude a |}.

Definition assign_gain_tx (v : num) (a : variables) : variables :=
  {| samp_rate := samp_rate a; packet_len := packet_len a; freq_res := freq_res a;
     freq := freq a; center_freq := center_freq a; v_res := v_res a;
     time_res := time_res a; threshold := threshold a; samp_protect := samp_protect a;
     range_time := range_time a; range_res := range_res a;
     min_output_buffer := min_output_buffer a;
     max_output_buffer := max_output_buffer a; gain_tx := v; gain_rx := gain_rx a;
     delay_samp := delay_samp a; decim_fac := decim_fac a; amplitude := amplitude a |}.

Definition assign_gain_rx (v : num) (a : variables) : variables :=
  {| samp_rate := samp_rate a; packet_len := packet_len a; freq_res := freq_res a;
     freq := freq a; center_freq := center_freq a; v_res := v_res a;
     time_res := time_res a; threshold := threshold a; samp_protect := samp_protect a;
     range_time := range_time a; range_res := range_res a;
     min_output_buffer := min_output_buffer a;
     max_output_buffer := max_output_buffer a; gain_tx := gain_tx a; gain_rx := v;
     delay_samp := delay_samp a; decim_fac := decim_fac a; amplitude := amplitude a |}.

Definition assign_delay_samp (v : num) (a : variables) : variables :=
  {| samp_rate := samp_rate a; packet_len := packet_len a; freq_res := freq_res a;
     freq := freq a; center_freq := center_freq a; v_res := v_res a;
     time_res := time_res a; threshold := threshold a; samp_protect := samp_protect a;
     range_time := range_time a; range_res := range_res a;
     min_output_buffer := min_output_buffer a;
     max_output_buffer := max_output_buffer a; gain_tx := gain_tx a;
     gain_rx := gain_rx a; delay_samp := v; decim_fac := decim_fac a;
     amplitude := amplitude a |}.

Definition assign_decim_fac (v : num) (a : variables) : variables :=
  {| samp_rate := samp_rate a; packet_len := packet_len a; freq_res := freq_res a;
     freq := freq a; center_freq := center_freq a; v_res := v_res a;
     time_res := time_res a; threshold := threshold a; samp_protect := samp_protect a;
     range_time := range_time a; range_res := range_res a;
     min_output_buffer := min_output_buffer a;
     max_output_buffer := max_output_buffer a; gain_tx := gain_tx a;
     gain_rx := gain_rx a; delay_samp := delay_samp a; decim_fac := v;
     amplitude := amplitude a |}.

Definition assign_amplitude (v : num) (a : variables) : variables :=
  {| samp_rate := samp_rate a; packet_len := packet_len a; freq_res := freq_res a;
     freq := freq a; center_freq := center_freq a; v_res := v_res a;
     time_res := time_res a; threshold := threshold a; samp_protect := samp_protect a;
     range_time := range_time a; range_res := range_res a;
     min_output_buffer := min_output_buffer a;
     max_output_buffer := max_output_buffer a; gain_tx := gain_tx a;
     gain_rx := gain_rx a; delay_samp := delay_samp a; decim_fac := decim_fac a;
     amplitude := v |}.

Definition on_vars (f : variables -> variables) (self : top_block) : top_block :=
  {| vars := f (vars self); graph := graph self |}.

Definition on_graph (f : flowgraph -> flowgraph) (self : top_block) : top_block :=
  {| vars := vars self; graph := f (graph self) |}.

(** A method of the top block: it reads and updates [self], and either
    returns or raises; what it had assigned before raising stays assigned. *)
Definition M (A : Type) : Type := top_block -> result A * top_block.

Definition ret {A} (a : A) : M A := fun self => (Ok a, self).

Definition bind {A B} (m : M A) (k : A -> M B) : M B :=
  fun self =>
    match m self with
    | (Ok a, self') => k a self'
    | (Err e, self') => (Err e, self')
    end.

Definition eval {A} (e : top_block -> result A) : M A := fun self => (e self, self).

Definition update (f : top_block -> top_block) : M unit := fun self => (Ok tt, f self).

Declare Scope method_scope.
Delimit Scope method_scope with method.
Bind Scope method_scope with M.
Notation "x <- m ;; k" := (bind m (fun x => k))
  (at level 61, m at next level, right associativity) : method_scope.
Notation "m ;; k" := (bind m (fun _ => k))
  (at level 61, right associativity) : method_scope.

(** The state a call leaves and whether it returned. *)
Definition after {A} (m : M A) (self : top_block) : top_block := snd (m self).
Definition outcome {A} (m : M A) (self : top_block) : result A := fst (m self).

(** ** The constructor

    [__init__] takes no argument: the variables get their literal values, the
    derived ones are computed from them, and every block is built from the
    local variables. *)

Definition __init__ : result top_block :=
  (let samp_rate := 14250000 in
   let packet_len := 2 ^ 21 in
   freq_res <- freq_res_expr (Int samp_rate) (Int packet_len) ;;
   let freq := (-3000000, 3000000) in
   let center_freq := 2.4e9%float in
   v_res <- v_res_expr freq_res (Float center_freq) ;;
   time_res <- time_res_expr (Int samp_rate) (Int packet_len) ;;
   let threshold := -200 in
   let samp_protect := 1 in
   let range_time := 60 in
   range_res <- range_res_expr (Int (fst freq), Int (snd freq)) ;;
   min_output_buffer <- min_output_buffer_expr (Int packet_len) ;;
   let max_output_buffer := 0 in
   let gain_tx := 40 in
   let gain_rx := 10 in
   let delay_samp := 33 in
   let decim_fac := 2 ^ 7 in
   let amplitude := 0.5%float in
   num_delay_samps <- py_int (Int delay_samp) ;;
   fft_size_0_0 <- floordiv packet_len decim_fac ;;
   fft_size_0 <- floordiv packet_len decim_fac ;;
   peak_rate <- floordiv samp_rate decim_fac ;;
   protect <- py_int (Int samp_protect) ;;
   scalar_0_0 <- scalar_expr (Int decim_fac) ;;
   scalar_0 <- scalar_expr (Int decim_fac) ;;
   Ok {| vars :=
           {| samp_rate := Int samp_rate; packet_len := Int packet_len;
              freq_res := freq_res; freq := (Int (fst freq), Int (snd freq));
              center_freq := Float center_freq; v_res := v_res; time_res := time_res;
              threshold := Int threshold; samp_protect := Int samp_protect;
              range_time := Int range_time; range_res := range_res;
              min_output_buffer := Int min_output_buffer;
              max_output_buffer := Int max_output_buffer;
              gain_tx := Int gain_tx; gain_rx := Int gain_rx;
              delay_samp := Int delay_samp; decim_fac := Int decim_fac;
              amplitude := Float amplitude |};
         graph :=
           {| rational_resampler_xxx_0_0 :=
                {| rr_interpolation := 1; rr_decimation := decim_fac |};
              rational_resampler_xxx_0 :=
                {| rr_interpolation := 1; rr_decimation := decim_fac |};
              radar_usrp_echotimer_cc_0 :=
                {| et_samp_rate := samp_rate; et_center_freq := center_freq;
                   et_num_delay_samps := num_delay_samps;
                   et_tx := {| u_args := "addr=10.10.3.20"; u_wire := "";
                               u_clock_source := "internal"; u_time_source := "none";
                               u_antenna := "TX/RX"; u_gain := Int gain_tx;
                               u_timeout := 0.1; u_wait := 0.05; u_lo_offset := 0 |};
                   et_rx := {| u_args := "addr=10.10.3.25"; u_wire := "";
                               u_clock_source := "mimo"; u_time_source := "mimo";
                               u_antenna := "TX/RX"; u_gain := Int gain_rx;
                               u_timeout := 0.1; u_wait := 0.05; u_lo_offset := 0 |};
                   et_len_key := "packet_len" |};
              radar_ts_fft_cc_0_0 :=
                {| fft_packet_len := fft_size_0_0; fft_len_key := "packet_len" |};
              radar_ts_fft_cc_0 :=
                {| fft_packet_len := fft_size_0; fft_len_key := "packet_len" |};
              radar_signal_generator_cw_c_0_0 :=
                {| sg_packet_len := packet_len; sg_samp_rate := samp_rate;
                   sg_frequency := [snd freq]; sg_amplitude := amplitude;
                   sg_len_key := "packet_len" |};
              radar_signal_generator_cw_c_0 :=
                {| sg_packet_len := packet_len; sg_samp_rate := samp_rate;
                   sg_frequency := [fst freq]; sg_amplitude := amplitude;
                   sg_len_key := "packet_len" |};
              radar_qtgui_time_plot_0 :=
                {| tp_interval := 100; tp_label_y := "range";
                   tp_axis_y := [Int 0; range_res]; tp_range_time := range_time;
                   tp_label := "" |};
              radar_find_max_peak_c_0 :=
                {| fp_samp_rate := peak_rate; fp_threshold := Int threshold;
                   fp_samp_protect := protect; fp_max_freq := [-300; 300];
                   fp_cut_max_freq := true; fp_len_key := "packet_len" |};
              radar_estimator_fsk_0 :=
                {| ef_center_freq := center_freq; ef_delta_freq := snd freq - fst freq;
                   ef_push_power := false |};
              blocks_tagged_stream_multiply_length_0_0 :=
                {| ml_itemsize := sizeof_gr_complex * 1; ml_lengthtagname := "packet_len";
                   ml_scalar := scalar_0_0 |};
              blocks_tagged_stream_multiply_length_0 :=
                {| ml_itemsize := sizeof_gr_complex * 1; ml_lengthtagname := "packet_len";
                   ml_scalar := scalar_0 |} |} |})%result.

(** The stream connections of the constructor, as
    (source, output port, destination, input port). *)
Inductive block :=
| blocks_add_xx_1
| blocks_multiply_conjugate_cc_0
| blocks_multiply_conjugate_cc_0_0
| blocks_multiply_conjugate_cc_1
| b_tagged_stream_multiply_length_0
| b_tagged_stream_multiply_length_0_0
| b_signal_generator_cw_c_0
| b_signal_generator_cw_c_0_0
| b_ts_fft_cc_0
| b_ts_fft_cc_0_0
| b_usrp_echotimer_cc_0
| b_rational_resampler_xxx_0
| b_rational_resampler_xxx_0_0
| b_find_max_peak_c_0.

Definition connections : list (block * nat * block * nat) :=
  [ (blocks_add_xx_1, 0, b_usrp_echotimer_cc_0, 0);
    (blocks_multiply_conjugate_cc_0, 0, b_rational_resampler_xxx_0, 0);
    (blocks_multiply_conjugate_cc_0_0, 0, b_rational_resampler_xxx_0_0, 0);
    (blocks_multiply_conjugate_cc_1, 0, b_find_max_peak_c_0, 0);
    (b_tagged_stream_multiply_length_0, 0, b_ts_fft_cc_0, 0);
    (b_tagged_stream_multiply_length_0_0, 0, b_ts_fft_cc_0_0, 0);
    (b_signal_generator_cw_c_0, 0, blocks_add_xx_1, 0);
    (b_signal_generator_cw_c_0, 0, blocks_multiply_conjugate_cc_0, 1);
    (b_signal_generator_cw_c_0_0, 0, blocks_add_xx_1, 1);
    (b_signal_generator_cw_c_0_0, 0, blocks_multiply_conjugate_cc_0_0, 1);
    (b_ts_fft_cc_0, 0, blocks_multiply_conjugate_cc_1, 0);
    (b_ts_fft_cc_0_0, 0, blocks_multiply_conjugate_cc_1, 1);
    (b_usrp_echotimer_cc_0, 0, blocks_multiply_conjugate_cc_0, 0);
    (b_usrp_echotimer_cc_0, 0, blocks_multiply_conjugate_cc_0_0, 0);
    (b_rational_resampler_xxx_0, 0, b_tagged_stream_multiply_length_0, 0);
    (b_rational_resampler_xxx_0_0, 0, b_tagged_stream_multiply_length_0_0, 0) ]%nat.

(** The other channel's counterpart of a block; the blocks the channels share
    are their own counterparts. *)
Definition mirror (b : block) : block :=
  match b with
  | blocks_multiply_conjugate_cc_0 => blocks_multiply_conjugate_cc_0_0
  | blocks_multiply_conjugate_cc_0_0 => blocks_multiply_conjugate_cc_0
  | b_tagged_stream_multiply_length_0 => b_tagged_stream_multiply_length_0_0
  | b_tagged_stream_multiply_length_0_0 => b_tagged_stream_multiply_length_0
  | b_signal_generator_cw_c_0 => b_signal_generator_cw_c_0_0
  | b_signal_generator_cw_c_0_0 => b_signal_generator_cw_c_0
  | b_ts_fft_cc_0 => b_ts_fft_cc_0_0
  | b_ts_fft_cc_0_0 => b_ts_fft_cc_0
  | b_rational_resampler_xxx_0 => b_rational_resampler_xxx_0_0
  | b_rational_resampler_xxx_0_0 => b_rational_resampler_xxx_0
  | shared => shared
  end.

(** The two channels meet at the adder and at the cross-channel correlator,
    one on input 0 and the other on input 1. *)
Definition mirror_input (b : block) (port : nat) : nat :=
  match b with
  | blocks_add_xx_1 | blocks_multiply_conjugate_cc_1 => (1 - port)%nat
  | _ => port
  end.

Definition mirror_edge (e : block * nat * block * nat) : block * nat * block * nat :=
  let '(src, out, dst, inp) := e in
  (mirror src, out, mirror dst, mirror_input dst inp).

(** ** Getters and setters *)

Section Methods.
Local Open Scope method_scope.

Definition attr {A} (x : variables -> A) : M A := fun self => (Ok (x (vars self)), self).

Definition get_samp_rate : M num := attr samp_rate.
Definition get_packet_len : M num := attr packet_len.
Definition get_freq_res : M num := attr freq_res.
Definition get_freq : M (num * num) := attr freq.
Definition get_center_freq : M num := attr center_freq.
Definition get_v_res : M num := attr v_res.
Definition get_time_res : M num := attr time_res.
Definition get_threshold : M num := attr threshold.
Definition get_samp_protect : M num := attr samp_protect.
Definition get_range_time : M num := attr range_time.
Definition get_range_res : M num := attr range_res.
Definition get_min_output_buffer : M num := attr min_output_buffer.
Definition get_max_output_buffer : M num := attr max_output_buffer.
Definition get_gain_tx : M num := attr gain_tx.
Definition get_gain_rx : M num := attr gain_rx.
Definition get_delay_samp : M num := attr delay_samp.
Definition get_decim_fac : M num := attr decim_fac.
Definition get_amplitude : M num := attr amplitude.

Definition set_v_res (value : num) : M unit :=
  update (on_vars (assign_v_res value)).

Definition set_time_res (value : num) : M unit :=
  update (on_vars (assign_time_res value)).

Definition set_range_time (value : num) : M unit :=
  update (on_vars (assign_range_time value)).

Definition set_range_res (value : num) : M unit :=
  update (on_vars (assign_range_res value)).

Definition set_min_output_buffer (value : num) : M unit :=
  update (on_vars (assign_min_output_buffer value)).

Definition set_max_output_buffer (value : num) : M unit :=
  update (on_vars (assign_max_output_buffer value)).

Definition set_amplitude (value : num) : M unit :=
  update (on_vars (assign_amplitude value)).

Definition set_freq_res (value : num) : M unit :=
  update (on_vars (assign_freq_res value)) ;;
  x <- eval (fun self => v_res_expr (freq_res (vars self)) (center_freq (vars self))) ;;
  set_v_res x.

Definition set_samp_rate (value : num) : M unit :=
  update (on_vars (assign_samp_rate value)) ;;
  x <- eval (fun self => freq_res_expr (samp_rate (vars self)) (packet_len (vars self))) ;;
  set_freq_res x ;;
  y <- eval (fun self => time_res_expr (samp_rate (vars self)) (packet_len (vars self))) ;;
  set_time_res y.

Definition set_packet_len (value : num) : M unit :=
  update (on_vars (assign_packet_len value)) ;;
  x <- eval (fun self => freq_res_expr (samp_rate (vars self)) (packet_len (vars self))) ;;
  set_freq_res x ;;
  n <- eval (fun self => min_output_buffer_expr (packet_len (vars self))) ;;
  set_min_output_buffer (Int n) ;;
  y <- eval (fun self => time_res_expr (samp_rate (vars self)) (packet_len (vars self))) ;;
  set_time_res y.

Definition set_freq (value : num * num) : M unit :=
  update (on_vars (assign_freq value)) ;;
  x <- eval (fun self => range_res_expr (freq (vars self))) ;;
  set_range_res x.

Definition set_center_freq (value : num) : M unit :=
  update (on_vars (assign_center_freq value)) ;;
  x <- eval (fun self => v_res_expr (freq_res (vars self)) (center_freq (vars self))) ;;
  set_v_res x.

Definition set_threshold (value : num) : M unit :=
  update (on_vars (assign_threshold value)) ;;
  update (fun self =>
    on_graph (with_find_max_peak (fp_set_threshold (threshold (vars self)))) self).

Definition set_samp_protect (value : num) : M unit :=
  update (on_vars (assign_samp_protect value)) ;;
  n <- eval (fun self => py_int (samp_protect (vars self))) ;;
  update (on_graph (with_find_max_peak (fp_set_samp_protect n))).

Definition set_gain_tx (value : num) : M unit :=
  update (on_vars (assign_gain_tx value)) ;;
  update (fun self => on_graph (with_echotimer (set_tx_gain (gain_tx (vars self)))) self).

Definition set_gain_rx (value : num) : M unit :=
  update (on_vars (assign_gain_rx value)) ;;
  update (fun self => on_graph (with_echotimer (set_rx_gain (gain_rx (vars self)))) self).

Definition set_delay_samp (value : num) : M unit :=
  update (on_vars (assign_delay_samp value)) ;;
  n <- eval (fun self => py_int (delay_samp (vars self))) ;;
  update (on_graph (with_echotimer (set_num_delay_samps n))).

Definition set_decim_fac (value : num) : M unit :=
  update (on_vars (assign_decim_fac value)) ;;
  c <- eval (fun self => scalar_expr (decim_fac (vars self))) ;;
  update (on_graph (with_multiply_length_0 (set_scalar c))) ;;
  c' <- eval (fun self => scalar_expr (decim_fac (vars self))) ;;
  update (on_graph (with_multiply_length_0_0 (set_scalar c'))).
End Methods.

(** The top block the constructor builds (it raises nothing: see
    [init_returns]). *)
Definition tb0 : top_block :=
  Eval vm_compute in
    match __init__ as r return match r with Ok _ => top_block | Err _ => unit end with
    | Ok self => self
    | Err _ => tt
    end.

(** ** Calls from outside

    Every setter is public: the control surface (the sliders built by the
    constructor) and any other caller may invoke it at any time. *)

Inductive call :=
| Set_samp_rate (v : num)
| Set_packet_len (v : num)
| Set_freq_res (v : num)
| Set_freq (v : num * num)
| Set_center_freq (v : num)
| Set_v_res (v : num)
| Set_time_res (v : num)
| Set_threshold (v : num)
| Set_samp_protect (v : num)
| Set_range_time (v : num)
| Set_range_res (v : num)
| Set_min_output_buffer (v : num)
| Set_max_output_buffer (v : num)
| Set_gain_tx (v : num)
| Set_gain_rx (v : num)
| Set_delay_samp (v : num)
| Set_decim_fac (v : num)
| Set_amplitude (v : num).

Definition run (c : call) : M unit :=
  match c with
  | Set_samp_rate v => set_samp_rate v
  | Set_packet_len v => set_packet_len v
  | Set_freq_res v => set_freq_res v
  | Set_freq v => set_freq v
  | Set_center_freq v => set_center_freq v
  | Set_v_res v => set_v_res v
  | Set_time_res v => set_time_res v
  | Set_threshold v => set_threshold v
  | Set_samp_protect v => set_samp_protect v
  | Set_range_time v => set_range_time v
  | Set_range_res v => set_range_res v
  | Set_min_output_buffer v => set_min_output_buffer v
  | Set_max_output_buffer v => set_max_output_buffer v
  | Set_gain_tx v => set_gain_tx v
  | Set_gain_rx v => set_gain_rx v
  | Set_delay_samp v => set_delay_samp v
  | Set_decim_fac v => set_decim_fac v
  | Set_amplitude v => set_amplitude v
  end.

(** The top block after a sequence of calls; a caller that catches the
    exception of a call goes on with the attributes as the call left them. *)
Fixpoint run_all (cs : list call) (self : top_block) : top_block :=
  match cs with
  | [] => self
  | c :: cs' => run_all cs' (after (run c) self)
  end.

(** Every call of the sequence returns (raises nothing). *)
Fixpoint all_return (cs : list call) (self : top_block) : Prop :=
  match cs with
  | [] => True
  | c :: cs' => outcome (run c) self = Ok tt /\ all_return cs' (after (run c) self)
  end.

(** ** The decimator and the frame-length tag *)

(** Modelled from the spec: the frame length the decimator puts out for a
    frame of [L] samples, the floor of [L / decimation].  (The filter is GNU
    Radio's [rational_resampler_ccc]; the flow graph only instantiates it.) *)
Definition resampler_output_length (b : rational_resampler_ccc) (L : Z) : Z :=
  L / rr_decimation b.

(** ** The self-mixer *)

Section SelfMixer.
(** Samples are complex numbers over a ring of scalars. *)
Variable K : Type.
Variables (kadd kmul ksub : K -> K -> K) (kopp : K -> K).

Record sample := { re : K; im : K }.

Definition conjugate (z : sample) : sample :=
  {| re := re z; im := kopp (im z) |}.

Definition multiply (a b : sample) : sample :=
  {| re := ksub (kmul (re a) (re b)) (kmul (im a) (im b));
     im := kadd (kmul (re a) (im b)) (kmul (im a) (re b)) |}.

(** Modelled from the spec: the work of [blocks.multiply_conjugate_cc], a
    GNU Radio block the flow graph only instantiates.  Per index it yields
    [received[i] * conjugate(reference[i])]; the two frames must have the
    same length, a mismatch being a fatal protocol violation ([None]). *)
Fixpoint multiply_conjugate (received reference : list sample) : option (list sample) :=
  match received, reference with
  | [], [] => Some []
  | a :: received', b :: reference' =>
      option_map (cons (multiply a (conjugate b)))
                 (multiply_conjugate received' reference')
  | _, _ => None
  end.
End SelfMixer.

Arguments re {K} s.
Arguments im {K} s.
Arguments Build_sample {K} re im.
Arguments conjugate {K} kopp z.
Arguments multiply {K} kadd kmul ksub a b.
Arguments multiply_conjugate {K} kadd kmul ksub kopp received reference.

(** ** The notions the properties are stated with *)

(** The setters that assign [range_res]. *)
Definition sets_range_res (c : call) : bool :=
  match c with
  | Set_freq _ | Set_range_res _ => true
  | _ => false
  end.

(** The setters of the parameters the derived quantities depend on. *)
Definition top_level (c : call) : bool :=
  match c with
  | Set_samp_rate _ | Set_packet_len _ | Set_freq _ | Set_center_freq _ => true
  | _ => false
  end.

(** Each derived attribute holds the value of its expression on the current
    parameters: [freq_res = samp_rate/packet_len],
    [time_res = packet_len/samp_rate], [v_res = freq_res*3e8/2/center_freq]
    and [range_res = 3e8/2/(freq[1]-freq[0])], in binary64 as the flow graph
    computes them. *)
Definition consistent (self : top_block) : Prop :=
  let a := vars self in
  freq_res_expr (samp_rate a) (packet_len a) = Ok (freq_res a) /\
  time_res_expr (samp_rate a) (packet_len a) = Ok (time_res a) /\
  v_res_expr (freq_res a) (center_freq a) = Ok (v_res a) /\
  range_res_expr (freq a) = Ok (range_res a).

(** The exact value of a finite float as a fraction [n / 2^k]. *)
Definition exact_value (f : float) : option (Z * Z) :=
  match Prim2SF f with
  | S754_zero _ => Some (0, 1)
  | S754_finite s m e =>
      let n := if s then Zneg m else Zpos m in
      Some (if 0 <=? e then (n * 2 ^ e, 1) else (n, 2 ^ (- e)))
  | S754_infinity _ => None
  | S754_nan => None
  end.

(** The two channels carry the same parameters: generators (apart from the
    tone), resamplers, length-scaling blocks and FFTs. *)
Definition symmetric (self : top_block) : Prop :=
  let g := graph self in
  sg_packet_len (radar_signal_generator_cw_c_0_0 g)
    = sg_packet_len (radar_signal_generator_cw_c_0 g) /\
  sg_samp_rate (radar_signal_generator_cw_c_0_0 g)
    = sg_samp_rate (radar_signal_generator_cw_c_0 g) /\
  sg_amplitude (radar_signal_generator_cw_c_0_0 g)
    = sg_amplitude (radar_signal_generator_cw_c_0 g) /\
  rr_decimation (rational_resampler_xxx_0_0 g)
    = rr_decimation (rational_resampler_xxx_0 g) /\
  ml_scalar (blocks_tagged_stream_multiply_length_0_0 g)
    = ml_scalar (blocks_tagged_stream_multiply_length_0 g) /\
  fft_packet_len (radar_ts_fft_cc_0_0 g) = fft_packet_len (radar_ts_fft_cc_0 g).

Definition same_scalar (self : top_block) : Prop :=
  ml_scalar (blocks_tagged_stream_multiply_length_0_0 (graph self))
  = ml_scalar (blocks_tagged_stream_multiply_length_0 (graph self)).

(** The seven controls of the control surface. *)
Inductive control :=
| TX_gain | RX_gain | Delay_samp | Decim_fac | Threshold | Samp_protect | Amplitude.

Definition control_setter (k : control) : num -> M unit :=
  match k with
  | TX_gain => set_gain_tx
  | RX_gain => set_gain_rx
  | Delay_samp => set_delay_samp
  | Decim_fac => set_decim_fac
  | Threshold => set_threshold
  | Samp_protect => set_samp_protect
  | Amplitude => set_amplitude
  end.

(** The attribute of the top block behind a control. *)
Definition control_attr (k : control) : variables -> num :=
  match k with
  | TX_gain => gain_tx
  | RX_gain => gain_rx
  | Delay_samp => delay_samp
  | Decim_fac => decim_fac
  | Threshold => threshold
  | Samp_protect => samp_protect
  | Amplitude => amplitude
  end.

(** The running blocks carry the value [v] of control [k]: the parameter of
    each block that was constructed from the control's variable. *)
Definition live (k : control) (v : num) (g : flowgraph) : Prop :=
  match k with
  | TX_gain => u_gain (et_tx (radar_usrp_echotimer_cc_0 g)) = v
  | RX_gain => u_gain (et_rx (radar_usrp_echotimer_cc_0 g)) = v
  | Delay_samp => Ok (et_num_delay_samps (radar_usrp_echotimer_cc_0 g)) = py_int v
  | Threshold => fp_threshold (radar_find_max_peak_c_0 g) = v
  | Samp_protect => Ok (fp_samp_protect (radar_find_max_peak_c_0 g)) = py_int v
  | Decim_fac =>
      Int (rr_decimation (rational_resampler_xxx_0 g)) = v /\
      Int (rr_decimation (rational_resampler_xxx_0_0 g)) = v /\
      Ok (ml_scalar (blocks_tagged_stream_multiply_length_0 g)) = scalar_expr v /\
      Ok (ml_scalar (blocks_tagged_stream_multiply_length_0_0 g)) = scalar_expr v
  | Amplitude =>
      Float (sg_amplitude (radar_signal_generator_cw_c_0 g)) = v /\
      Float (sg_amplitude (radar_signal_generator_cw_c_0_0 g)) = v
  end.

(** The derived resolutions of the top block. *)
Definition resolutions (self : top_block) : num * num * num * num :=
  (freq_res (vars self), range_res (vars self), v_res (vars self), time_res (vars self)).

(** The values the specification calls invalid: a decimation factor that is
    not an integer, a negative amplitude or threshold, a tone beyond the
    Nyquist frequency [samp_rate/2]. *)
Definition fractional (v : num) : bool :=
  match v with
  | Int _ => false
  | Float f =>
      match exact_value f with
      | Some (n, d) => negb (n mod d =? 0)
      | None => true
      end
  end.

Definition negative (v : num) : bool :=
  match v with
  | Int z => z <? 0
  | Float f => (f <? 0)%float
  end.

Definition exceeds_nyquist (samp_rate tone : num) : bool :=
  match py_float samp_rate, py_float tone with
  | Ok r, Ok f => (r / 2 <? abs f)%float
  | _, _ => false
  end.

(** The three tuning parameters of the peak detector. *)
Inductive tuning := Magnitude_threshold | Guard_width | Search_window.

(** The value the running peak detector holds for a tuning parameter. *)
Definition tuned (p : tuning) (self : top_block) : list num :=
  let b := radar_find_max_peak_c_0 (graph self) in
  match p with
  | Magnitude_threshold => [fp_threshold b]
  | Guard_width => [Int (fp_samp_protect b)]
  | Search_window => map Int (fp_max_freq b)
  end.

(** Some call of the top block, in some state, changes the parameter. *)
Definition has_mutation_path (p : tuning) : Prop :=
  exists (c : call) (self : top_block),
    outcome (run c) self = Ok tt /\ tuned p (after (run c) self) <> tuned p self.

(** Modelled from the spec: the length-scaling step rescales the frame-length
    tag by the scalar of its block ([tagged_stream_multiply_length] is GNU
    Radio's; the flow graph only instantiates it and sets its scalar).  The
    scalar is the binary64 number the flow graph handed over, taken at its
    exact value [n / den]: the rescaled tag is the fraction [tag * n / den]
    ([None] when the scalar is not a finite number). *)
Definition rescaled_tag (b : tagged_stream_multiply_length) (tag : Z) : option (Z * Z) :=
  match py_float (ml_scalar b) with
  | Ok c =>
      match exact_value c with
      | Some (n, den) => Some (tag * n, den)
      | None => None
      end
  | Err _ => None
  end.

(** The rescaled tag read as a length: its floor is [t]. *)
Definition carried_length (b : tagged_stream_multiply_length) (tag t : Z) : Prop :=
  exists n den, rescaled_tag b tag = Some (n, den) /\ 0 < den /\ n / den = t.

(** For the decimation factor [d] and a frame of [L] samples: both decimators
    put out [floor(L/d)] samples and both rescaled tags say the same. *)
Definition decimation_agrees (self : top_block) (d L : Z) : Prop :=
  let g := graph self in
  resampler_output_length (rational_resampler_xxx_0 g) L = L / d /\
  resampler_output_length (rational_resampler_xxx_0_0 g) L = L / d /\
  carried_length (blocks_tagged_stream_multiply_length_0 g) L (L / d) /\
  carried_length (blocks_tagged_stream_multiply_length_0_0 g) L (L / d).

(** The resamplers decimate by the constructor's [2**7], and while
    [decim_fac] is [2**7] the two length scalars are [2^-7]. *)
Definition decimation_as_built (self : top_block) : Prop :=
  let g := graph self in
  rr_decimation (rational_resampler_xxx_0 g) = 2 ^ 7 /\
  rr_decimation (rational_resampler_xxx_0_0 g) = 2 ^ 7 /\
  (decim_fac (vars self) = Int (2 ^ 7) ->
   ml_scalar (blocks_tagged_stream_multiply_length_0 g) = Float 0.0078125 /\
   ml_scalar (blocks_tagged_stream_multiply_length_0_0 g) = Float 0.0078125).

(** ** Sample inputs *)

Definition retune : list call :=
  [ Set_samp_rate (Int 10000000);
    Set_center_freq (Float 5.8e9);
    Set_freq (Int (-1000000), Float 2.5e6);
    Set_packet_len (Int (2 ^ 20)) ].

Definition frame_a : list (sample Z) := [Build_sample 1 2; Build_sample 0 (-3)].

Definition frame_b : list (sample Z) := [Build_sample 4 (-1); Build_sample 5 7].

(** ** Which setter assigns what *)

(** The setters that call a method of a running block. *)
Definition touches_graph (c : call) : bool :=
  match c with
  | Set_threshold _ | Set_samp_protect _ | Set_gain_tx _ | Set_gain_rx _
  | Set_delay_samp _ | Set_decim_fac _ => true
  | _ => false
  end.

(** The flow graph with the six parameters a setter can reach blanked out:
    what is left is fixed by the constructor. *)
Definition static (g : flowgraph) : flowgraph :=
  with_echotimer
    (fun b => set_tx_gain (Int 0) (set_rx_gain (Int 0) (set_num_delay_samps 0 b)))
    (with_find_max_peak
       (fun b => fp_set_threshold (Int 0) (fp_set_samp_protect 0 b))
       (with_multiply_length_0 (set_scalar (Int 0))
          (with_multiply_length_0_0 (set_scalar (Int 0)) g))).

(** The setters that overwrite a derived attribute with the caller's value. *)
Definition assigns_derived (c : call) : bool :=
  match c with
  | Set_freq_res _ | Set_v_res _ | Set_time_res _ | Set_range_res _ => true
  | _ => false
  end.

(** The attributes a setter reads or assigns fall into chains: the rates
    ([samp_rate], [packet_len], [center_freq] and what is derived from them),
    the tones ([freq], [range_res]), and one chain for each remaining
    attribute. *)
Definition chain (c : call) : nat :=
  match c with
  | Set_samp_rate _ | Set_packet_len _ | Set_freq_res _ | Set_center_freq _
  | Set_v_res _ | Set_time_res _ | Set_min_output_buffer _ => 0
  | Set_freq _ | Set_range_res _ => 1
  | Set_threshold _ => 2
  | Set_samp_protect _ => 3
  | Set_range_time _ => 4
  | Set_max_output_buffer _ => 5
  | Set_gain_tx _ => 6
  | Set_gain_rx _ => 7
  | Set_delay_samp _ => 8
  | Set_decim_fac _ => 9
  | Set_amplitude _ => 10
  end%nat.

(** Two calls of the same setter. *)
Definition same_setter (c1 c2 : call) : bool :=
  match c1, c2 with
  | Set_samp_rate _, Set_samp_rate _ | Set_packet_len _, Set_packet_len _
  | Set_freq_res _, Set_freq_res _ | Set_freq _, Set_freq _
  | Set_center_freq _, Set_center_freq _ | Set_v_res _, Set_v_res _
  | Set_time_res _, Set_time_res _ | Set_threshold _, Set_threshold _
  | Set_samp_protect _, Set_samp_protect _ | Set_range_time _, Set_range_time _
  | Set_range_res _, Set_range_res _
  | Set_min_output_buffer _, Set_min_output_buffer _
  | Set_max_output_buffer _, Set_max_output_buffer _
  | Set_gain_tx _, Set_gain_tx _ | Set_gain_rx _, Set_gain_rx _
  | Set_delay_samp _, Set_delay_samp _ | Set_decim_fac _, Set_decim_fac _
  | Set_amplitude _, Set_amplitude _ => true
  | _, _ => false
  end.

(** [min_output_buffer] holds [int(packet_len*2)] for the current
    [packet_len]. *)
Definition buffer_follows (self : top_block) : Prop :=
  exists n,
    min_output_buffer_expr (packet_len (vars self)) = Ok n /\
    min_output_buffer (vars self) = Int n.

(** A number that compares equal to zero: [0], [0.0] or [-0.0]. *)
Definition is_zero_num (v : num) : bool :=
  match v with
  | Int z => z =? 0
  | Float f => is_zero f
  end.

(** A top block whose derived attributes were overwritten by hand. *)
Definition detuned : top_block :=
  run_all [Set_freq_res (Int 1); Set_v_res (Int 0); Set_time_res (Int 7);
           Set_range_res (Float 3.5); Set_min_output_buffer (Int 5)] tb0.

(** A sequence of calls none of which overwrites a derived attribute or the
    buffer size by hand. *)
Definition no_override (c : call) : bool :=
  negb (assigns_derived c) &&
  match c with Set_min_output_buffer _ => false | _ => true end.

(** Controls moved, gains changed and rates retuned, all with valid values. *)
Definition session : list call :=
  [ Set_gain_tx (Float 55); Set_threshold (Float (-120)); Set_delay_samp (Float 12);
    Set_packet_len (Int (2 ^ 18)); Set_decim_fac (Int 32); Set_samp_protect (Float 3);
    Set_center_freq (Float 5.8e9); Set_amplitude (Float 0.25); Set_gain_rx (Float 20);
    Set_range_time (Int 30); Set_max_output_buffer (Int 0);
    Set_samp_rate (Int 10000000); Set_freq (Int (-1000000), Int 1000000) ].

(** ** The sliders of the control surface

    [Range(minimum, maximum, step, default, min_len)] and the
    [RangeWidget] built on it, which hands every new position to its slot
    as a [float]. *)
Record Range := {
  r_minimum : Z;
  r_maximum : Z;
  r_step : Z;
  r_default : Z;
  r_min_len : Z
}.

Record RangeWidget := {
  w_range : Range;
  w_slot : control;
  w_label : string;
  w_style : string
}.

Definition _threshold_range : Range :=
  {| r_minimum := -500; r_maximum := 100; r_step := 1; r_default := -200; r_min_len := 200 |}.
Definition _samp_protect_range : Range :=
  {| r_minimum := 0; r_maximum := 100; r_step := 1; r_default := 1; r_min_len := 200 |}.
Definition _gain_tx_range : Range :=
  {| r_minimum := 0; r_maximum := 100; r_step := 1; r_default := 40; r_min_len := 200 |}.
Definition _gain_rx_range : Range :=
  {| r_minimum := 0; r_maximum := 100; r_step := 1; r_default := 10; r_min_len := 200 |}.
Definition _delay_samp_range : Range :=
  {| r_minimum := 0; r_maximum := 100; r_step := 1; r_default := 33; r_min_len := 200 |}.

Definition _threshold_win : RangeWidget :=
  {| w_range := _threshold_range; w_slot := Threshold;
     w_label := "Find peak threshold"; w_style := "counter_slider" |}.
Definition _samp_protect_win : RangeWidget :=
  {| w_range := _samp_protect_range; w_slot := Samp_protect;
     w_label := "Find peak protected samples"; w_style := "counter_slider" |}.
Definition _gain_tx_win : RangeWidget :=
  {| w_range := _gain_tx_range; w_slot := TX_gain;
     w_label := "TX gain"; w_style := "counter_slider" |}.
Definition _gain_rx_win : RangeWidget :=
  {| w_range := _gain_rx_range; w_slot := RX_gain;
     w_label := "RX gain"; w_style := "counter_slider" |}.
Definition _delay_samp_win : RangeWidget :=
  {| w_range := _delay_samp_range; w_slot := Delay_samp;
     w_label := "Number delay samples"; w_style := "counter_slider" |}.

(** The widgets, in the order the constructor adds them to the layout. *)
Definition widgets : list RangeWidget :=
  [_threshold_win; _samp_protect_win; _gain_tx_win; _gain_rx_win; _delay_samp_win].

(** Moving a slider to the integer position [n]: the slot is called with
    [float(n)]. *)
Definition slide (w : RangeWidget) (n : Z) : M unit :=
  control_setter (w_slot w) (Float (float_of_Z n)).

(** The parameter of the running block a control is wired to, as an integer
    where the block holds one. *)
Definition block_value (k : control) (g : flowgraph) : option num :=
  match k with
  | TX_gain => Some (u_gain (et_tx (radar_usrp_echotimer_cc_0 g)))
  | RX_gain => Some (u_gain (et_rx (radar_usrp_echotimer_cc_0 g)))
  | Delay_samp => Some (Int (et_num_delay_samps (radar_usrp_echotimer_cc_0 g)))
  | Threshold => Some (fp_threshold (radar_find_max_peak_c_0 g))
  | Samp_protect => Some (Int (fp_samp_protect (radar_find_max_peak_c_0 g)))
  | Decim_fac => Some (ml_scalar (blocks_tagged_stream_multiply_length_0 g))
  | Amplitude => None
  end.

(** The running blocks hold what the attributes say: the threshold and the
    two gains as they are ... *)
Definition in_step (self : top_block) : Prop :=
  let a := vars self in
  let g := graph self in
  fp_threshold (radar_find_max_peak_c_0 g) = threshold a /\
  u_gain (et_tx (radar_usrp_echotimer_cc_0 g)) = gain_tx a /\
  u_gain (et_rx (radar_usrp_echotimer_cc_0 g)) = gain_rx a.

(** ... and the delay, the guard count and the length scalars through the
    conversion their setter applies. *)
Definition in_step_converted (self : top_block) : Prop :=
  let a := vars self in
  let g := graph self in
  py_int (delay_samp a) = Ok (et_num_delay_samps (radar_usrp_echotimer_cc_0 g)) /\
  py_int (samp_protect a) = Ok (fp_samp_protect (radar_find_max_peak_c_0 g)) /\
  scalar_expr (decim_fac a) = Ok (ml_scalar (blocks_tagged_stream_multiply_length_0 g)) /\
  scalar_expr (decim_fac a) = Ok (ml_scalar (blocks_tagged_stream_multiply_length_0_0 g)).

(** * Properties *)

Lemma init_returns : __init__ = Ok tb0.
Proof. vm_compute. reflexivity. Qed.

(** Python's arithmetic on a few values. *)
Example python_arithmetic :
  py_int (Float 3.7) = Ok 3 /\
  py_int (Float (-3.7)) = Ok (-3) /\
  py_int (Float nan) = Err ValueError /\
  py_int (Float infinity) = Err OverflowError /\
  py_float (Int (2 ^ 53 + 1)) = Ok 9007199254740992%float /\
  py_float (Int (2 ^ 1024)) = Err OverflowError /\
  truediv (Int 1) (Float 0) = Err ZeroDivisionError /\
  truediv (Int 1) (Float (-0)) = Err ZeroDivisionError /\
  truediv (Float 1) (Int 49) = Ok (Float 0.02040816326530612) /\
  mul (Int 49) (Float 0.02040816326530612) = Ok (Float 0.9999999999999999) /\
  sub (Int 3000000) (Int (-3000000)) = Ok (Int 6000000) /\
  floordiv (2 ^ 21) (2 ^ 7) = Ok 16384 /\
  floordiv (-7) 2 = Ok (-4).
Proof. repeat (apply conj); vm_compute; reflexivity. Qed.

(** ** Running a method symbolically *)

(* The expressions a method evaluates stay folded under [simpl]. *)
#[local] Arguments freq_res_expr : simpl never.
#[local] Arguments time_res_expr : simpl never.
#[local] Arguments v_res_expr : simpl never.
#[local] Arguments range_res_expr : simpl never.
#[local] Arguments min_output_buffer_expr : simpl never.
#[local] Arguments scalar_expr : simpl never.
#[local] Arguments py_int : simpl never.

(** Split on whether the innermost expression under evaluation raises. *)
Ltac split_raise :=
  match goal with
  | |- context [match ?r with Ok _ => _ | Err _ => _ end] =>
      lazymatch r with
      | context [match _ with Ok _ => _ | Err _ => _ end] => fail
      | _ => let E := fresh "E" in destruct r eqn:E
      end
  end.

(** Unfold a method down to its assignments and the expressions it
    evaluates, one case per expression that may raise. *)
Ltac run_method :=
  unfold after, outcome, run,
    set_samp_rate, set_packet_len, set_freq_res, set_freq, set_center_freq,
    set_v_res, set_time_res, set_threshold, set_samp_protect, set_range_time,
    set_range_res, set_min_output_buffer, set_max_output_buffer, set_gain_tx,
    set_gain_rx, set_delay_samp, set_decim_fac, set_amplitude,
    get_samp_rate, get_packet_len, get_freq, get_center_freq, get_threshold,
    get_samp_protect, get_gain_tx, get_gain_rx, get_delay_samp, get_decim_fac,
    get_amplitude, get_range_time, attr, bind, update, eval;
  simpl;
  repeat (split_raise; simpl).

(** ** Getters and setters agree *)

(** C9. Getter/setter round trip: for each of samp_rate, packet_len, freq,
    center_freq, threshold, samp_protect, gain_tx, gain_rx, delay_samp,
    decim_fac, amplitude and range_time, and for every value [v], [get_X()]
    after [set_X(v)] gives [v].  The attribute is assigned first, so this
    holds as well when the setter goes on to raise. *)
Theorem getter_after_setter (self : top_block) :
  (forall v, outcome get_samp_rate (after (set_samp_rate v) self) = Ok v) /\
  (forall v, outcome get_packet_len (after (set_packet_len v) self) = Ok v) /\
  (forall v, outcome get_freq (after (set_freq v) self) = Ok v) /\
  (forall v, outcome get_center_freq (after (set_center_freq v) self) = Ok v) /\
  (forall v, outcome get_threshold (after (set_threshold v) self) = Ok v) /\
  (forall v, outcome get_samp_protect (after (set_samp_protect v) self) = Ok v) /\
  (forall v, outcome get_gain_tx (after (set_gain_tx v) self) = Ok v) /\
  (forall v, outcome get_gain_rx (after (set_gain_rx v) self) = Ok v) /\
  (forall v, outcome get_delay_samp (after (set_delay_samp v) self) = Ok v) /\
  (forall v, outcome get_decim_fac (after (set_decim_fac v) self) = Ok v) /\
  (forall v, outcome get_amplitude (after (set_amplitude v) self) = Ok v) /\
  (forall v, outcome get_range_time (after (set_range_time v) self) = Ok v).
Proof.
  repeat split; intro v; run_method; reflexivity.
Qed.

(** ** Range resolution and the centre frequency *)

(** C5. [set_center_freq] leaves [range_res] as it was, whatever the value
    and whether or not it raises: it assigns [center_freq] and, when the
    velocity resolution can be computed, [v_res], and nothing else.  Of all
    the setters only [set_freq] and [set_range_res] can change [range_res]. *)
Theorem set_center_freq_keeps_range_res :
  (forall self v,
     range_res (vars (after (set_center_freq v) self)) = range_res (vars self)) /\
  (forall self v, exists x,
     after (set_center_freq v) self
     = on_vars (assign_v_res x) (on_vars (assign_center_freq v) self)) /\
  (forall self c,
     sets_range_res c = true \/
     range_res (vars (after (run c) self)) = range_res (vars self)).
Proof.
  split; [| split].
  - intros self v. run_method; reflexivity.
  - intros self v. run_method.
    + eexists; reflexivity.
    + exists (v_res (vars self)). destruct self as [[] g]; reflexivity.
  - intros self c. destruct c; simpl; auto; right; run_method; reflexivity.
Qed.

(** ** The derived quantities follow the parameters *)

Lemma consistent_tb0 : consistent tb0.
Proof. repeat split; vm_compute; reflexivity. Qed.

Lemma top_level_consistent (c : call) (self : top_block) :
  top_level c = true ->
  consistent self ->
  outcome (run c) self = Ok tt ->
  consistent (after (run c) self).
Proof.
  intros Hc (H1 & H2 & H3 & H4) Hret.
  destruct c; try discriminate Hc; clear Hc; revert Hret;
    unfold consistent; run_method; intro Hret; try discriminate Hret;
    repeat split; assumption.
Qed.

(** A call that raises leaves what it had already assigned: [set_samp_rate(0)]
    stores the rate and the new [freq_res] and [v_res], then raises on
    [packet_len/float(0)], with [time_res] still the old one. *)
Lemma set_samp_rate_zero_raises :
  outcome (set_samp_rate (Int 0)) tb0 = Err ZeroDivisionError /\
  samp_rate (vars (after (set_samp_rate (Int 0)) tb0)) = Int 0 /\
  freq_res (vars (after (set_samp_rate (Int 0)) tb0)) = Float 0 /\
  time_res (vars (after (set_samp_rate (Int 0)) tb0)) = time_res (vars tb0).
Proof. repeat split; vm_compute; reflexivity. Qed.

(** Written with the divisor [2*center_freq], respectively
    [2*(freq[1]-freq[0])], the two resolutions of the constructed top block
    have the same binary64 values. *)
Lemma resolutions_tb0_regrouped :
  v_res (vars tb0) = Float (6.7949295043945312 * 3e8 / (2 * 2.4e9)) /\
  freq_res (vars tb0) = Float 6.7949295043945312 /\
  range_res (vars tb0) = Float (3e8 / (2 * (3000000 - -3000000))).
Proof. repeat (apply conj); vm_compute; reflexivity. Qed.

(** C2, as stated, fails: [set_packet_len(1e308)] raises [OverflowError] on
    [int(packet_len*2)], after [freq_res] and [v_res] were recomputed and
    before [time_res] was; the [set_center_freq(5.8e9)] that follows returns,
    and [time_res] is still the one of the constructor. *)
Lemma stale_after_raise :
  ~ (forall cs, forallb top_level cs = true -> consistent (run_all cs tb0)).
Proof.
  intro H.
  specialize (H [Set_packet_len (Float 1e308); Set_center_freq (Float 5.8e9)] eq_refl).
  destruct H as (_ & H & _). vm_compute in H. discriminate H.
Qed.

Lemma set_packet_len_1e308_raises :
  let s1 := after (set_packet_len (Float 1e308)) tb0 in
  let s2 := after (set_center_freq (Float 5.8e9)) s1 in
  outcome (set_packet_len (Float 1e308)) tb0 = Err OverflowError /\
  outcome (set_center_freq (Float 5.8e9)) s1 = Ok tt /\
  packet_len (vars s2) = Float 1e308 /\
  time_res (vars s2) = time_res (vars tb0).
Proof. cbv zeta. repeat (apply conj); vm_compute; reflexivity. Qed.

(** C2, amended.  After construction, and after any sequence of calls to
    [set_samp_rate], [set_packet_len], [set_freq] and [set_center_freq] in
    which every call returns, the four derived quantities all agree with the
    parameters.  Each of these setters, when it returns, has recomputed its
    own chain from whatever state it was called in: [set_samp_rate] and
    [set_packet_len] the three of [freq_res], [time_res] and [v_res],
    [set_freq] the range resolution, [set_center_freq] the velocity
    resolution. *)
Theorem derived_quantities_consistent :
  consistent tb0 /\
  (forall (self : top_block) (cs : list call),
     consistent self ->
     forallb top_level cs = true ->
     all_return cs self ->
     consistent (run_all cs self)) /\
  (forall self v,
     outcome (set_samp_rate v) self = Ok tt ->
     let a := vars (after (set_samp_rate v) self) in
     freq_res_expr (samp_rate a) (packet_len a) = Ok (freq_res a) /\
     time_res_expr (samp_rate a) (packet_len a) = Ok (time_res a) /\
     v_res_expr (freq_res a) (center_freq a) = Ok (v_res a)) /\
  (forall self v,
     outcome (set_packet_len v) self = Ok tt ->
     let a := vars (after (set_packet_len v) self) in
     freq_res_expr (samp_rate a) (packet_len a) = Ok (freq_res a) /\
     time_res_expr (samp_rate a) (packet_len a) = Ok (time_res a) /\
     v_res_expr (freq_res a) (center_freq a) = Ok (v_res a)) /\
  (forall self v,
     outcome (set_freq v) self = Ok tt ->
     let a := vars (after (set_freq v) self) in
     range_res_expr (freq a) = Ok (range_res a)) /\
  (forall self v,
     outcome (set_center_freq v) self = Ok tt ->
     let a := vars (after (set_center_freq v) self) in
     v_res_expr (freq_res a) (center_freq a) = Ok (v_res a)).
Proof.
  split; [exact consistent_tb0 |].
  split.
  { intros self cs; revert self.
    induction cs as [| c cs IH]; intros self Hs Htop Hret; simpl in *.
    - exact Hs.
    - apply andb_prop in Htop. destruct Htop as [Hc Hcs]. destruct Hret as [Hr Hrs].
      apply IH; auto using top_level_consistent. }
  repeat (apply conj); intros self v;
    run_method; intro H; try discriminate H; repeat (apply conj); assumption.
Qed.

Lemma derived_quantities_consistent_witness :
  consistent tb0 /\ forallb top_level retune = true /\ all_return retune tb0 /\
  consistent (run_all retune tb0).
Proof.
  split; [exact (proj1 derived_quantities_consistent) |].
  split; [reflexivity |].
  split; [vm_compute; repeat split; reflexivity |].
  apply (proj1 (proj2 derived_quantities_consistent) tb0 retune).
  - exact (proj1 derived_quantities_consistent).
  - reflexivity.
  - vm_compute; repeat split; reflexivity.
Defined.

(** ** The default configuration *)

(** C3. With the constructor's values ([samp_rate = 14250000],
    [packet_len = 2**21], [decim_fac = 2**7], [freq = (-3000000, 3000000)],
    [center_freq = 2.4e9]) the range resolution is exactly [25], which is
    also the value of [3e8/(2*6e6)], and the time resolution is the float
    nearest to [2**21/14250000], which lies within [0.0005] of [0.147]. *)
Theorem default_resolutions :
  samp_rate (vars tb0) = Int 14250000 /\
  packet_len (vars tb0) = Int (2 ^ 21) /\
  decim_fac (vars tb0) = Int (2 ^ 7) /\
  freq (vars tb0) = (Int (-3000000), Int 3000000) /\
  center_freq (vars tb0) = Float 2.4e9 /\
  range_res (vars tb0) = Float 25 /\
  (3e8 / (2 * 6e6))%float = 25%float /\
  time_res (vars tb0) = Float (float_of_Z (2 ^ 21) / float_of_Z 14250000) /\
  exists t n d,
    time_res (vars tb0) = Float t /\
    exact_value t = Some (n, d) /\
    0 < d /\
    1465 * d < 10000 * n < 1475 * d /\
    (0.1465 <? t)%float = true /\ (t <? 0.1475)%float = true.
Proof.
  repeat (split; [vm_compute; reflexivity |]).
  exists 0.14716856140350879%float, 5302306226379953, (2 ^ 55).
  repeat split; vm_compute; reflexivity.
Qed.

(** ** The two channels *)

Lemma set_decim_fac_same_scalar (self : top_block) (v : num) :
  same_scalar self -> same_scalar (after (set_decim_fac v) self).
Proof.
  unfold same_scalar. intro H. run_method; try assumption; congruence.
Qed.

(** The wiring is the same for the two channels. *)
Lemma connections_mirror :
  Forall (fun e => In (mirror_edge e) connections) connections.
Proof.
  apply Forall_forall. intros e H. simpl in H.
  repeat (destruct H as [<- | H]; [simpl; tauto |]).
  contradiction.
Qed.

Lemma run_symmetric (c : call) (self : top_block) :
  symmetric self -> symmetric (after (run c) self).
Proof.
  unfold symmetric. intros (H1 & H2 & H3 & H4 & H5 & H6).
  destruct c; run_method; repeat (apply conj); try assumption; congruence.
Qed.

Lemma run_all_symmetric (cs : list call) (self : top_block) :
  symmetric self -> symmetric (run_all cs self).
Proof.
  revert self. induction cs as [| c cs IH]; intros self H; simpl.
  - exact H.
  - apply IH, run_symmetric, H.
Qed.

(** C10. The constructor configures the two channels alike: both signal
    generators get [packet_len], [samp_rate] and [amplitude] and differ only
    in the tone ([freq[1]] for [_0_0], [freq[0]] for [_0]); both resamplers
    decimate by [decim_fac]; both length-scaling blocks get
    [1.0/float(decim_fac)]; both FFTs have size [packet_len//decim_fac].
    [set_decim_fac] keeps the two scalars equal, and so does every sequence
    of calls. *)
Theorem channels_symmetric :
  let a := vars tb0 in
  let g := graph tb0 in
  (Int (sg_packet_len (radar_signal_generator_cw_c_0_0 g)) = packet_len a /\
   Int (sg_packet_len (radar_signal_generator_cw_c_0 g)) = packet_len a /\
   Int (sg_samp_rate (radar_signal_generator_cw_c_0_0 g)) = samp_rate a /\
   Int (sg_samp_rate (radar_signal_generator_cw_c_0 g)) = samp_rate a /\
   Float (sg_amplitude (radar_signal_generator_cw_c_0_0 g)) = amplitude a /\
   Float (sg_amplitude (radar_signal_generator_cw_c_0 g)) = amplitude a /\
   map Int (sg_frequency (radar_signal_generator_cw_c_0_0 g)) = [snd (freq a)] /\
   map Int (sg_frequency (radar_signal_generator_cw_c_0 g)) = [fst (freq a)]) /\
  (Int (rr_decimation (rational_resampler_xxx_0_0 g)) = decim_fac a /\
   Int (rr_decimation (rational_resampler_xxx_0 g)) = decim_fac a /\
   rr_interpolation (rational_resampler_xxx_0_0 g) = 1 /\
   rr_interpolation (rational_resampler_xxx_0 g) = 1) /\
  (Ok (ml_scalar (blocks_tagged_stream_multiply_length_0_0 g)) = scalar_expr (decim_fac a) /\
   Ok (ml_scalar (blocks_tagged_stream_multiply_length_0 g)) = scalar_expr (decim_fac a)) /\
  (Ok (fft_packet_len (radar_ts_fft_cc_0_0 g)) = floordiv (2 ^ 21) (2 ^ 7) /\
   Ok (fft_packet_len (radar_ts_fft_cc_0 g)) = floordiv (2 ^ 21) (2 ^ 7)) /\
  (forall self v, same_scalar self -> same_scalar (after (set_decim_fac v) self)) /\
  (forall cs, symmetric (run_all cs tb0)).
Proof.
  cbv zeta.
  split; [repeat (apply conj); vm_compute; reflexivity |].
  split; [repeat (apply conj); vm_compute; reflexivity |].
  split; [repeat (apply conj); vm_compute; reflexivity |].
  split; [repeat (apply conj); vm_compute; reflexivity |].
  split.
  - exact set_decim_fac_same_scalar.
  - intro cs. apply run_all_symmetric.
    repeat (apply conj); vm_compute; reflexivity.
Qed.

Lemma channels_symmetric_witness :
  same_scalar tb0 /\ same_scalar (after (set_decim_fac (Int 64)) tb0).
Proof.
  split; [vm_compute; reflexivity |].
  apply (proj1 (proj2 (proj2 (proj2 (proj2 channels_symmetric)))) tb0 (Int 64)).
  vm_compute; reflexivity.
Defined.

(** ** The control surface *)

Lemma float_neq (x y : float) : Prim2SF x <> Prim2SF y -> Float x <> Float y.
Proof. intros H E. apply H. injection E as ->. reflexivity. Qed.

(** C4, as stated, fails: [set_amplitude(1.0)] returns with the new value
    stored in the attribute while both signal generators keep the amplitude
    [0.5] they were constructed with; the flow graph is untouched. *)
Lemma set_amplitude_not_live :
  ~ (forall (k : control) (v : num) (self : top_block),
       outcome (control_setter k v) self = Ok tt ->
       live k v (graph (after (control_setter k v) self))).
Proof.
  intro H. specialize (H Amplitude (Float 1) tb0 eq_refl).
  destruct H as [H _]. revert H. apply float_neq. vm_compute. discriminate.
Qed.

(** C4, amended.  The setters of the TX gain, the RX gain, the delay, the
    threshold and the guard-sample count store the value and pass it to the
    running block (delay and guard count through [int]).  [set_decim_fac]
    stores the value and passes [1.0/float(decim_fac)] to the two
    length-scaling blocks only: resamplers, FFTs and peak detector keep what
    they were constructed with.  [set_amplitude] stores the value and touches
    no block.  None of the seven changes a derived resolution, and each
    leaves its value in the attribute. *)
Theorem control_surface_effect (self : top_block) (v : num) :
  (forall k,
     match k with
     | TX_gain | RX_gain | Threshold => outcome (control_setter k v) self = Ok tt
     | Delay_samp | Samp_protect =>
         outcome (control_setter k v) self = (_ <- py_int v ;; Ok tt)%result
     | Decim_fac => outcome (control_setter k v) self = (_ <- scalar_expr v ;; Ok tt)%result
     | Amplitude => outcome (control_setter k v) self = Ok tt
     end) /\
  (forall k,
     outcome (control_setter k v) self = Ok tt ->
     match k with
     | Decim_fac =>
         let g := graph (after (set_decim_fac v) self) in
         Ok (ml_scalar (blocks_tagged_stream_multiply_length_0 g)) = scalar_expr v /\
         Ok (ml_scalar (blocks_tagged_stream_multiply_length_0_0 g)) = scalar_expr v /\
         g = with_multiply_length_0_0
               (set_scalar (ml_scalar (blocks_tagged_stream_multiply_length_0_0 g)))
               (with_multiply_length_0
                  (set_scalar (ml_scalar (blocks_tagged_stream_multiply_length_0 g)))
                  (graph self))
     | Amplitude => graph (after (set_amplitude v) self) = graph self
     | _ => live k v (graph (after (control_setter k v) self))
     end) /\
  (forall k, resolutions (after (control_setter k v) self) = resolutions self) /\
  (forall k, control_attr k (vars (after (control_setter k v) self)) = v).
Proof.
  split; [| split; [| split]]; intro k.
  4: destruct k; simpl control_setter; simpl control_attr; run_method; reflexivity.
  - destruct k; simpl control_setter; run_method; reflexivity.
  - destruct k; simpl control_setter; simpl live; run_method; intro H;
      try discriminate H; try reflexivity; try (symmetry; assumption).
    repeat (apply conj); try reflexivity; try congruence.
  - destruct k; simpl control_setter; unfold resolutions; run_method; reflexivity.
Qed.

Lemma control_surface_effect_witness :
  outcome (control_setter Decim_fac (Int 64)) tb0 = Ok tt /\
  Ok (ml_scalar (blocks_tagged_stream_multiply_length_0
                   (graph (after (set_decim_fac (Int 64)) tb0))))
  = scalar_expr (Int 64).
Proof.
  split; [vm_compute; reflexivity |].
  apply (proj1 (proj2 (control_surface_effect tb0 (Int 64))) Decim_fac).
  vm_compute; reflexivity.
Defined.

(** ** The peak detector *)

Lemma run_keeps_search_window (c : call) (self : top_block) :
  fp_max_freq (radar_find_max_peak_c_0 (graph (after (run c) self)))
  = fp_max_freq (radar_find_max_peak_c_0 (graph self)).
Proof. destruct c; run_method; reflexivity. Qed.

Lemma run_all_keeps_search_window (cs : list call) (self : top_block) :
  fp_max_freq (radar_find_max_peak_c_0 (graph (run_all cs self)))
  = fp_max_freq (radar_find_max_peak_c_0 (graph self)).
Proof.
  revert self. induction cs as [| c cs IH]; intro self; simpl.
  - reflexivity.
  - rewrite IH. apply run_keeps_search_window.
Qed.

(** C6, as stated, fails: the search window has no mutation path.  It is the
    literal [[-300,300]] of the constructor, and no setter changes it. *)
Lemma search_window_fixed :
  ~ (forall p : tuning, has_mutation_path p).
Proof.
  intro H. destruct (H Search_window) as (c & self & _ & Hneq).
  apply Hneq. unfold tuned. rewrite run_keeps_search_window. reflexivity.
Qed.

(** C6, amended.  The threshold and the guard width can be changed while the
    flow graph runs: [set_threshold(v)] hands [v], and [set_samp_protect(v)]
    hands [int(v)], to the running peak detector.  The search window stays
    [[-300,300]] after every sequence of calls. *)
Theorem peak_detector_tuning :
  (forall self v,
     outcome (set_threshold v) self = Ok tt /\
     fp_threshold (radar_find_max_peak_c_0 (graph (after (set_threshold v) self))) = v) /\
  (forall self v n,
     py_int v = Ok n ->
     outcome (set_samp_protect v) self = Ok tt /\
     fp_samp_protect (radar_find_max_peak_c_0 (graph (after (set_samp_protect v) self))) = n) /\
  has_mutation_path Magnitude_threshold /\
  has_mutation_path Guard_width /\
  (forall cs,
     fp_max_freq (radar_find_max_peak_c_0 (graph (run_all cs tb0))) = [-300; 300]).
Proof.
  split; [| split; [| split; [| split]]].
  - intros self v. split; run_method; reflexivity.
  - intros self v n Hn. split; run_method; simpl in *; congruence.
  - exists (Set_threshold (Int (-150))), tb0. split; [reflexivity |].
    vm_compute. discriminate.
  - exists (Set_samp_protect (Float 4.0)), tb0. split; [reflexivity |].
    vm_compute. discriminate.
  - intro cs. rewrite run_all_keeps_search_window. reflexivity.
Qed.

Lemma peak_detector_tuning_witness :
  py_int (Float 3.7) = Ok 3 /\
  fp_samp_protect (radar_find_max_peak_c_0
                     (graph (after (set_samp_protect (Float 3.7)) tb0))) = 3.
Proof.
  split; [vm_compute; reflexivity |].
  apply (proj1 (proj2 peak_detector_tuning) tb0 (Float 3.7) 3).
  vm_compute; reflexivity.
Defined.

(** ** Configuration values are not validated *)

(** Values the setters accept: a fractional decimation factor ([2.5], for
    which the length scalar becomes [0.4]), a tone of 30 MHz at a sample rate
    of 14.25 MHz, a negative amplitude and a negative threshold. *)
Lemma accepted_values :
  (outcome (set_decim_fac (Float 2.5)) tb0 = Ok tt /\
   decim_fac (vars (after (set_decim_fac (Float 2.5)) tb0)) = Float 2.5 /\
   ml_scalar (blocks_tagged_stream_multiply_length_0
                (graph (after (set_decim_fac (Float 2.5)) tb0))) = Float 0.4) /\
  (outcome (set_freq (Int (-3000000), Int 30000000)) tb0 = Ok tt /\
   freq (vars (after (set_freq (Int (-3000000), Int 30000000)) tb0))
   = (Int (-3000000), Int 30000000) /\
   samp_rate (vars tb0) = Int 14250000) /\
  (outcome (set_amplitude (Float (-0.5))) tb0 = Ok tt /\
   amplitude (vars (after (set_amplitude (Float (-0.5))) tb0)) = Float (-0.5)) /\
  (outcome (set_threshold (Int (-300))) tb0 = Ok tt /\
   threshold (vars (after (set_threshold (Int (-300))) tb0)) = Int (-300)).
Proof.
  repeat (apply conj); vm_compute; reflexivity.
Qed.

(** C8, as stated, fails, for each kind of invalid value: no setter rejects
    a fractional decimation factor, a negative amplitude, a negative
    threshold or a tone beyond Nyquist.  The constructor itself configures
    the negative threshold [-200] and returns. *)
Lemma invalid_values_accepted :
  ~ (forall self v, fractional v = true -> outcome (set_decim_fac v) self <> Ok tt) /\
  ~ (forall self v, negative v = true -> outcome (set_amplitude v) self <> Ok tt) /\
  ~ (forall self v, negative v = true -> outcome (set_threshold v) self <> Ok tt) /\
  ~ (forall self f0 f1,
       exceeds_nyquist (samp_rate (vars self)) f1 = true ->
       outcome (set_freq (f0, f1)) self <> Ok tt) /\
  (negative (threshold (vars tb0)) = true /\ __init__ = Ok tb0).
Proof.
  repeat (apply conj).
  - intro H. apply (H tb0 (Float 2.5)); vm_compute; reflexivity.
  - intro H. apply (H tb0 (Float (-0.5))); vm_compute; reflexivity.
  - intro H. apply (H tb0 (Int (-300))); vm_compute; reflexivity.
  - intro H. apply (H tb0 (Int (-3000000)) (Int 30000000)); vm_compute; reflexivity.
  - vm_compute; reflexivity.
  - vm_compute; reflexivity.
Qed.

Lemma half_3e8 : truediv (Float 3e8) (Int 2) = Ok (Float 1.5e8).
Proof. vm_compute. reflexivity. Qed.

(** C8, amended.  The flow graph validates nothing: a setter raises exactly
    when the arithmetic on its value raises.  [set_amplitude] and
    [set_threshold] return for every value; [set_decim_fac] returns whenever
    [1.0/float(decim_fac)] can be computed, so for every non-zero float,
    fractional or not; [set_freq] returns whenever
    [3e8/2/float(freq[1]-freq[0])] can be computed, so for every two floats
    whose difference is not zero, whatever the sample rate.  The threshold of
    the constructor is itself negative. *)
Theorem setters_validate_nothing :
  (forall self v,
     outcome (set_amplitude v) self = Ok tt /\ outcome (set_threshold v) self = Ok tt) /\
  (forall self v,
     outcome (set_decim_fac v) self = (_ <- scalar_expr v ;; Ok tt)%result) /\
  (forall self v,
     outcome (set_freq v) self = (_ <- range_res_expr v ;; Ok tt)%result) /\
  (forall self f,
     is_zero f = false -> outcome (set_decim_fac (Float f)) self = Ok tt) /\
  (forall self f0 f1,
     is_zero (f1 - f0) = false -> outcome (set_freq (Float f0, Float f1)) self = Ok tt) /\
  threshold (vars tb0) = Int (-200).
Proof.
  assert (Hd : forall self v,
            outcome (set_decim_fac v) self = (_ <- scalar_expr v ;; Ok tt)%result).
  { intros self v. run_method; reflexivity. }
  assert (Hf : forall self v,
            outcome (set_freq v) self = (_ <- range_res_expr v ;; Ok tt)%result).
  { intros self v. run_method; reflexivity. }
  split; [| split; [exact Hd | split; [exact Hf | split; [| split; [| reflexivity]]]]].
  - intros self v. split; run_method; reflexivity.
  - intros self f Hz. rewrite Hd. unfold scalar_expr, truediv. simpl.
    rewrite Hz. reflexivity.
  - intros self f0 f1 Hz. rewrite Hf. unfold range_res_expr.
    rewrite half_3e8. unfold truediv. simpl. rewrite Hz. reflexivity.
Qed.

Lemma setters_validate_nothing_witness :
  is_zero 2.5 = false /\ outcome (set_decim_fac (Float 2.5)) tb0 = Ok tt.
Proof.
  split; [reflexivity |].
  apply (proj1 (proj2 (proj2 (proj2 setters_validate_nothing))) tb0 2.5%float).
  reflexivity.
Defined.

(** ** The self-mixer *)

(** Each self-mixer gets the received frame on input 0 and its tone, the
    reference, on input 1. *)
Lemma self_mixer_wiring :
  In (b_usrp_echotimer_cc_0, 0, blocks_multiply_conjugate_cc_0, 0)%nat connections /\
  In (b_signal_generator_cw_c_0, 0, blocks_multiply_conjugate_cc_0, 1)%nat connections /\
  In (b_usrp_echotimer_cc_0, 0, blocks_multiply_conjugate_cc_0_0, 0)%nat connections /\
  In (b_signal_generator_cw_c_0_0, 0, blocks_multiply_conjugate_cc_0_0, 1)%nat connections.
Proof. repeat (apply conj); simpl; tauto. Qed.

Section SelfMixerProperties.
Variable K : Type.
Variables (kzero kone : K) (kadd kmul ksub : K -> K -> K) (kopp : K -> K).
Hypothesis K_ring : ring_theory kzero kone kadd kmul ksub kopp eq.

Add Ring K_is_ring : K_ring.

Lemma multiply_conjugate_swap_sample (a b : sample K) :
  multiply kadd kmul ksub a (conjugate kopp b)
  = conjugate kopp (multiply kadd kmul ksub b (conjugate kopp a)).
Proof.
  unfold multiply, conjugate; simpl. f_equal; ring.
Qed.

Lemma multiply_conjugate_swap (A B : list (sample K)) :
  multiply_conjugate kadd kmul ksub kopp A B
  = option_map (map (conjugate kopp)) (multiply_conjugate kadd kmul ksub kopp B A).
Proof.
  revert B. induction A as [| a A IH]; intros [| b B]; simpl; try reflexivity.
  rewrite IH.
  destruct (multiply_conjugate kadd kmul ksub kopp B A) as [l |]; simpl; [| reflexivity].
  rewrite multiply_conjugate_swap_sample. reflexivity.
Qed.

Lemma multiply_conjugate_length (A B : list (sample K)) :
  List.length A = List.length B ->
  exists AB,
    multiply_conjugate kadd kmul ksub kopp A B = Some AB /\ List.length AB = List.length A.
Proof.
  revert B. induction A as [| a A IH]; intros [| b B] H; simpl in *;
    try discriminate.
  - exists []. split; reflexivity.
  - injection H as H. destruct (IH B H) as (l & -> & Hl).
    eexists. split; [reflexivity |]. simpl. rewrite Hl. reflexivity.
Qed.

(** C7. For two frames of the same length, mixing [A] against [B] gives,
    index by index, the complex conjugate of mixing [B] against [A]. *)
Theorem self_mixer_swap_conjugate (A B : list (sample K)) :
  List.length A = List.length B ->
  exists AB BA,
    multiply_conjugate kadd kmul ksub kopp A B = Some AB /\
    multiply_conjugate kadd kmul ksub kopp B A = Some BA /\
    List.length AB = List.length A /\
    List.length BA = List.length A /\
    forall i, nth_error AB i = option_map (conjugate kopp) (nth_error BA i).
Proof.
  intro H.
  destruct (multiply_conjugate_length B A (eq_sym H)) as (BA & HBA & LBA).
  exists (map (conjugate kopp) BA), BA.
  rewrite multiply_conjugate_swap, HBA. simpl.
  repeat (apply conj); try reflexivity.
  - rewrite length_map. congruence.
  - congruence.
  - intro i. apply nth_error_map.
Qed.
End SelfMixerProperties.

Lemma self_mixer_swap_conjugate_witness :
  List.length frame_a = List.length frame_b /\
  exists AB BA,
    multiply_conjugate Z.add Z.mul Z.sub Z.opp frame_a frame_b = Some AB /\
    multiply_conjugate Z.add Z.mul Z.sub Z.opp frame_b frame_a = Some BA /\
    List.length AB = List.length frame_a /\
    List.length BA = List.length frame_a /\
    forall i, nth_error AB i = option_map (conjugate Z.opp) (nth_error BA i).
Proof.
  split; [reflexivity |].
  apply (self_mixer_swap_conjugate Z 0 1 Z.add Z.mul Z.sub Z.opp InitialRing.Zth
           frame_a frame_b).
  reflexivity.
Defined.

(** ** The decimator and the frame-length tag *)

Lemma exact_value_scalar :
  exact_value 0.0078125 = Some (2 ^ 52, 2 ^ 7 * 2 ^ 52).
Proof. vm_compute. reflexivity. Qed.

Lemma decimation_as_built_tb0 : decimation_as_built tb0.
Proof. repeat (apply conj); try intros _; try (apply conj); vm_compute; reflexivity. Qed.

Lemma run_keeps_decimation_as_built (c : call) (self : top_block) :
  decimation_as_built self -> decimation_as_built (after (run c) self).
Proof.
  unfold decimation_as_built. intros (H1 & H2 & H3).
  destruct c; run_method; repeat (apply conj); try assumption;
    intro Hv; subst; vm_compute in E; try discriminate E;
    injection E as <-; split; reflexivity.
Qed.

Lemma run_all_keeps_decimation_as_built (cs : list call) (self : top_block) :
  decimation_as_built self -> decimation_as_built (run_all cs self).
Proof.
  revert self. induction cs as [| c cs IH]; intros self H; simpl.
  - exact H.
  - apply IH, run_keeps_decimation_as_built, H.
Qed.

Lemma carried_length_as_built (b : tagged_stream_multiply_length) (L : Z) :
  ml_scalar b = Float 0.0078125 ->
  rescaled_tag b L = Some (L * 2 ^ 52, 2 ^ 7 * 2 ^ 52) /\
  carried_length b L (L / 2 ^ 7).
Proof.
  intro Hb.
  assert (Hr : rescaled_tag b L = Some (L * 2 ^ 52, 2 ^ 7 * 2 ^ 52)).
  { unfold rescaled_tag. rewrite Hb. cbn [py_float].
    rewrite exact_value_scalar. reflexivity. }
  split; [exact Hr |].
  exists (L * 2 ^ 52), (2 ^ 7 * 2 ^ 52). split; [exact Hr |].
  split; [reflexivity |].
  apply Z.div_mul_cancel_r; discriminate.
Qed.

(** C1, as stated, fails: [set_decim_fac(64)] returns and makes 64 the
    decimation factor of the top block, but the resamplers still decimate by
    the constructor's 128: a frame of [2**21] samples leaves them with 16384
    samples, not [floor(2**21/64) = 32768]. *)
Lemma decimation_factor_not_live :
  ~ (forall cs d L,
       1 <= d -> 0 <= L ->
       decim_fac (vars (run_all cs tb0)) = Int d ->
       decimation_agrees (run_all cs tb0) d L).
Proof.
  intro H.
  destruct (H [Set_decim_fac (Int 64)] 64 (2 ^ 21)) as (H1 & _); try lia.
  - reflexivity.
  - vm_compute in H1. discriminate H1.
Qed.

(** After [set_decim_fac(64)] the samples and the tag disagree: 16384 samples
    under a tag rescaled to [2**21 * 2^-6 = 32768]. *)
Lemma set_decim_fac_64_mismatch :
  let self := after (set_decim_fac (Int 64)) tb0 in
  outcome (set_decim_fac (Int 64)) tb0 = Ok tt /\
  decim_fac (vars self) = Int 64 /\
  resampler_output_length (rational_resampler_xxx_0 (graph self)) (2 ^ 21) = 16384 /\
  carried_length (blocks_tagged_stream_multiply_length_0 (graph self)) (2 ^ 21) 32768.
Proof.
  cbv zeta. repeat (apply conj); try (vm_compute; reflexivity).
  exists (2 ^ 21 * 2 ^ 52), (2 ^ 6 * 2 ^ 52).
  repeat (apply conj); vm_compute; reflexivity.
Qed.

(** C1, amended.  While the decimation factor of the top block is the
    [2**7] it was constructed with, for every frame length [L] both
    decimators put out [floor(L/2**7)] samples, and the tag rescaled by
    [1.0/float(2**7)] is exactly [L/2**7], whose floor is that same length.
    No other decimation factor does: one that agrees with the decimators on
    every frame length is [2**7]. *)
Theorem tag_matches_constructed_decimation :
  (forall cs L,
     decim_fac (vars (run_all cs tb0)) = Int (2 ^ 7) -> 0 <= L ->
     let g := graph (run_all cs tb0) in
     decimation_agrees (run_all cs tb0) (2 ^ 7) L /\
     rescaled_tag (blocks_tagged_stream_multiply_length_0 g) L
     = Some (L * 2 ^ 52, 2 ^ 7 * 2 ^ 52) /\
     rescaled_tag (blocks_tagged_stream_multiply_length_0_0 g) L
     = Some (L * 2 ^ 52, 2 ^ 7 * 2 ^ 52)) /\
  (forall cs d,
     1 <= d ->
     decim_fac (vars (run_all cs tb0)) = Int d ->
     (forall L, 0 <= L -> decimation_agrees (run_all cs tb0) d L) ->
     d = 2 ^ 7).
Proof.
  split.
  - intros cs L Hd HL. cbv zeta.
    destruct (run_all_keeps_decimation_as_built cs tb0 decimation_as_built_tb0)
      as (H1 & H2 & H3).
    destruct (H3 Hd) as [Hs0 Hs00].
    destruct (carried_length_as_built _ L Hs0) as [Hr0 Hc0].
    destruct (carried_length_as_built _ L Hs00) as [Hr00 Hc00].
    unfold decimation_agrees, resampler_output_length. cbv zeta.
    rewrite H1, H2. repeat (apply conj); auto.
  - intros cs d Hd Hv H.
    destruct (run_all_keeps_decimation_as_built cs tb0 decimation_as_built_tb0)
      as (H1 & _).
    destruct (H (2 ^ 7)) as (Ha & _); [lia |].
    destruct (H d) as (Hb & _); [lia |].
    unfold resampler_output_length in Ha, Hb. rewrite H1 in Ha, Hb.
    rewrite Z.div_same in Ha by discriminate.
    rewrite (Z.div_same d) in Hb by lia.
    destruct (Z_lt_le_dec (2 ^ 7) d) as [Hgt | Hle].
    + rewrite (Z.div_small (2 ^ 7) d) in Ha by lia. discriminate Ha.
    + destruct (Z_lt_le_dec d (2 ^ 7)) as [Hlt | Hge]; [| lia].
      rewrite (Z.div_small d (2 ^ 7)) in Hb by lia. discriminate Hb.
Qed.

Lemma tag_matches_constructed_decimation_witness :
  decim_fac (vars (run_all [Set_gain_tx (Float 30)] tb0)) = Int (2 ^ 7) /\
  0 <= 2 ^ 21 /\
  decimation_agrees (run_all [Set_gain_tx (Float 30)] tb0) (2 ^ 7) (2 ^ 21).
Proof.
  split; [reflexivity |]. split; [lia |].
  apply (proj1 tag_matches_constructed_decimation [Set_gain_tx (Float 30)] (2 ^ 21));
    [reflexivity | lia].
Defined.

(** ** Binary64: a 53-bit mantissa is its own rounding *)

Lemma digits2_pos_iter_xO (m q : positive) :
  digits2_pos (Pos.iter xO m q) = (digits2_pos m + q)%positive.
Proof.
  induction q as [| q IH] using Pos.peano_ind.
  - simpl. lia.
  - rewrite Pos.iter_succ. simpl. rewrite IH. lia.
Qed.

Lemma Zpos_iter_xO (m q : positive) :
  Zpos (Pos.iter xO m q) = Zpos m * 2 ^ Zpos q.
Proof.
  induction q as [| q IH] using Pos.peano_ind.
  - simpl. lia.
  - rewrite Pos.iter_succ, Pos2Z.inj_succ, Z.pow_succ_r by lia.
    rewrite Pos2Z.inj_xO, IH. lia.
Qed.

Lemma digits2_pos_bound (m : positive) :
  2 ^ (Zpos (digits2_pos m) - 1) <= Zpos m < 2 ^ Zpos (digits2_pos m).
Proof.
  induction m as [m IH | m IH |]; simpl digits2_pos.
  - rewrite Pos2Z.inj_succ, Z.pow_succ_r by lia.
    replace (Z.succ (Zpos (digits2_pos m)) - 1) with (Z.succ (Zpos (digits2_pos m) - 1)) by lia.
    rewrite Z.pow_succ_r by lia. lia.
  - rewrite Pos2Z.inj_succ, Z.pow_succ_r by lia.
    replace (Z.succ (Zpos (digits2_pos m)) - 1) with (Z.succ (Zpos (digits2_pos m) - 1)) by lia.
    rewrite Z.pow_succ_r by lia. lia.
  - simpl. lia.
Qed.

Lemma digits2_pos_le_53 (m : positive) :
  Zpos m < 2 ^ 53 -> Zpos (digits2_pos m) <= 53.
Proof.
  intro H. destruct (Z_le_gt_dec (Zpos (digits2_pos m)) 53) as [Hle | Hgt]; [exact Hle |].
  exfalso. pose proof (digits2_pos_bound m) as [Hlo _].
  assert (2 ^ 53 <= 2 ^ (Zpos (digits2_pos m) - 1)) by (apply Z.pow_le_mono_r; lia).
  lia.
Qed.

Lemma fexp_normal (d e : Z) :
  -1074 <= d + e - 53 -> fexp prec emax (d + e) = d + e - 53.
Proof. unfold fexp, SpecFloat.emin, prec, emax. lia. Qed.

Lemma shr_fexp_exact (m : positive) (e : Z) :
  digits2_pos m = 53%positive -> -1074 <= e ->
  shr_fexp prec emax (Zpos m) e loc_Exact
  = ({| shr_m := Zpos m; shr_r := false; shr_s := false |}, e).
Proof.
  intros Hd He. unfold shr_fexp.
  change (Zdigits2 (Zpos m)) with (Zpos (digits2_pos m)). rewrite Hd.
  rewrite fexp_normal by lia.
  replace (53 + e - 53 - e) with 0 by lia. reflexivity.
Qed.

(** A 53-bit mantissa with an exponent in range is its own rounding. *)
Lemma binary_round_aux_exact (s : bool) (m : positive) (e : Z) :
  digits2_pos m = 53%positive -> -1074 <= e <= 971 ->
  binary_round_aux prec emax s (Zpos m) e loc_Exact = S754_finite s m e.
Proof.
  intros Hd He. unfold binary_round_aux.
  rewrite shr_fexp_exact by (assumption || lia).
  cbn [shr_m shr_r shr_s loc_of_shr_record round_nearest_even].
  rewrite shr_fexp_exact by (assumption || lia).
  cbn [shr_m]. change (emax - prec) with 971.
  destruct (Z.leb_spec e 971); [reflexivity | lia].
Qed.

(** * Further properties of the setters *)

(** ** What the setters leave alone *)

(** X1. A setter other than [set_threshold], [set_samp_protect],
    [set_gain_tx], [set_gain_rx], [set_delay_samp] and [set_decim_fac] leaves
    every block as it is: retuning the sample rate, the packet length, the
    tones or the centre frequency reaches no running block. *)
Theorem run_keeps_graph (c : call) (self : top_block) :
  touches_graph c = false -> graph (after (run c) self) = graph self.
Proof.
  intro H. destruct c; try discriminate H; run_method; reflexivity.
Qed.

Lemma run_keeps_graph_witness :
  touches_graph (Set_samp_rate (Int 1000000)) = false /\
  graph (after (run (Set_samp_rate (Int 1000000))) tb0) = graph tb0.
Proof.
  split; [reflexivity |].
  apply (run_keeps_graph (Set_samp_rate (Int 1000000)) tb0). reflexivity.
Defined.

Lemma run_keeps_static (c : call) (self : top_block) :
  static (graph (after (run c) self)) = static (graph self).
Proof. destruct c; run_method; reflexivity. Qed.

(** X2. Whatever the calls, and whether they return or raise, a block
    parameter other than the threshold, the guard count, the two gains, the
    delay and the two length scalars stays what it was. *)
Theorem run_all_keeps_static (cs : list call) (self : top_block) :
  static (graph (run_all cs self)) = static (graph self).
Proof.
  revert self. induction cs as [| c cs IH]; intro self; simpl.
  - reflexivity.
  - rewrite IH. apply run_keeps_static.
Qed.

(** X3. Two calls on different chains of attributes can be made in either
    order: the top block ends up the same, and a call returns or raises the
    same whether or not the other was made first. *)
Theorem chains_commute (c1 c2 : call) (self : top_block) :
  chain c1 <> chain c2 ->
  after (run c1) (after (run c2) self) = after (run c2) (after (run c1) self) /\
  outcome (run c1) (after (run c2) self) = outcome (run c1) self.
Proof.
  intro H.
  destruct c1, c2; try (exfalso; apply H; reflexivity); clear H;
    (split; run_method; reflexivity).
Qed.

Lemma chains_commute_witness :
  chain (Set_samp_rate (Int 0)) <> chain (Set_delay_samp (Float nan)) /\
  after (run (Set_samp_rate (Int 0))) (after (run (Set_delay_samp (Float nan))) tb0)
  = after (run (Set_delay_samp (Float nan))) (after (run (Set_samp_rate (Int 0))) tb0).
Proof.
  assert (H : chain (Set_samp_rate (Int 0)) <> chain (Set_delay_samp (Float nan)))
    by (simpl; discriminate).
  split; [exact H |].
  apply (proj1 (chains_commute (Set_samp_rate (Int 0)) (Set_delay_samp (Float nan))
                  tb0 H)).
Defined.

(** ** Calling a setter again *)

(** An expression evaluated twice on the same values gave the same result. *)
Ltac same_results :=
  repeat match goal with
    | H : Ok _ = Err _ |- _ => discriminate H
    | H : Err _ = Ok _ |- _ => discriminate H
    | H : Ok _ = Ok _ |- _ => injection H as H; subst
    | H : Err _ = Err _ |- _ => injection H as H; subst
    | H1 : ?e = Ok _, H2 : ?e = _ |- _ => rewrite H1 in H2
    | H1 : ?e = Err _, H2 : ?e = _ |- _ => rewrite H1 in H2
    end.

(** X4. Making a call a second time changes nothing, also when the call
    raises: the top block is the same after the second call as after the
    first, and so is the outcome. *)
Theorem run_idempotent (c : call) (self : top_block) :
  after (run c) (after (run c) self) = after (run c) self /\
  outcome (run c) (after (run c) self) = outcome (run c) self.
Proof.
  destruct c; split; run_method; same_results; reflexivity.
Qed.

(** X5. A call that returns overwrites an earlier call of the same
    setter completely: nothing of the earlier value is left in the top block. *)
Theorem run_overwrites (c1 c2 : call) (self : top_block) :
  same_setter c1 c2 = true ->
  outcome (run c2) self = Ok tt ->
  after (run c2) (after (run c1) self) = after (run c2) self /\
  outcome (run c2) (after (run c1) self) = Ok tt.
Proof.
  intros Hs.
  destruct c1, c2; try discriminate Hs; clear Hs;
    run_method; intro H; try discriminate H; same_results; split; reflexivity.
Qed.

Lemma run_overwrites_witness :
  same_setter (Set_packet_len (Float nan)) (Set_packet_len (Int 4096)) = true /\
  outcome (run (Set_packet_len (Int 4096))) tb0 = Ok tt /\
  after (run (Set_packet_len (Int 4096))) (after (run (Set_packet_len (Float nan))) tb0)
  = after (run (Set_packet_len (Int 4096))) tb0.
Proof.
  assert (H : outcome (run (Set_packet_len (Int 4096))) tb0 = Ok tt)
    by (vm_compute; reflexivity).
  split; [reflexivity |]. split; [exact H |].
  apply (proj1 (run_overwrites (Set_packet_len (Float nan)) (Set_packet_len (Int 4096))
                  tb0 eq_refl H)).
Defined.

(** ** The derived attributes, from any state *)

Lemma set_samp_rate_relinks (self : top_block) (v : num) :
  outcome (set_samp_rate v) self = Ok tt ->
  let a := vars (after (set_samp_rate v) self) in
  samp_rate a = v /\
  freq_res_expr v (packet_len a) = Ok (freq_res a) /\
  time_res_expr v (packet_len a) = Ok (time_res a) /\
  v_res_expr (freq_res a) (center_freq a) = Ok (v_res a).
Proof.
  run_method; intro H; try discriminate H; repeat (apply conj); auto.
Qed.

Lemma set_packet_len_relinks (self : top_block) (v : num) :
  outcome (set_packet_len v) self = Ok tt ->
  let a := vars (after (set_packet_len v) self) in
  packet_len a = v /\
  freq_res_expr (samp_rate a) v = Ok (freq_res a) /\
  time_res_expr (samp_rate a) v = Ok (time_res a) /\
  v_res_expr (freq_res a) (center_freq a) = Ok (v_res a) /\
  buffer_follows (after (set_packet_len v) self).
Proof.
  unfold buffer_follows.
  run_method; intro H; try discriminate H; repeat (apply conj); auto.
  eexists. split; [eassumption | reflexivity].
Qed.

Lemma set_freq_relinks (self : top_block) (f : num * num) :
  outcome (set_freq f) self = Ok tt ->
  let a := vars (after (set_freq f) self) in
  freq a = f /\
  range_res_expr f = Ok (range_res a) /\
  (samp_rate a, packet_len a, center_freq a) =
  (samp_rate (vars self), packet_len (vars self), center_freq (vars self)) /\
  (freq_res a, v_res a, time_res a) =
  (freq_res (vars self), v_res (vars self), time_res (vars self)).
Proof.
  run_method; intro H; try discriminate H; repeat (apply conj); auto.
Qed.

(** X6. From any state of the attributes, a returning [set_samp_rate] or
    [set_packet_len] followed by a returning [set_freq] leaves all four
    derived quantities in agreement with the parameters, whatever was written
    into them before. *)
Theorem relink_from_any_state (self : top_block) (v : num) (f : num * num) :
  (outcome (set_samp_rate v) self = Ok tt ->
   outcome (set_freq f) (after (set_samp_rate v) self) = Ok tt ->
   consistent (run_all [Set_samp_rate v; Set_freq f] self)) /\
  (outcome (set_packet_len v) self = Ok tt ->
   outcome (set_freq f) (after (set_packet_len v) self) = Ok tt ->
   consistent (run_all [Set_packet_len v; Set_freq f] self)).
Proof.
  split; intros H1 H2; simpl run_all; unfold consistent; cbv zeta.
  - destruct (set_samp_rate_relinks self v H1) as (Hs & I1 & I2 & I3).
    destruct (set_freq_relinks _ f H2) as (Hf & I4 & Hp & Hd).
    injection Hp as -> -> ->. injection Hd as -> -> ->.
    rewrite Hf, Hs. auto.
  - destruct (set_packet_len_relinks self v H1) as (Hs & I1 & I2 & I3 & _).
    destruct (set_freq_relinks _ f H2) as (Hf & I4 & Hp & Hd).
    injection Hp as -> -> ->. injection Hd as -> -> ->.
    rewrite Hf, Hs. auto.
Qed.

Lemma relink_from_any_state_witness :
  ~ consistent detuned /\
  outcome (set_samp_rate (Int 1000000)) detuned = Ok tt /\
  outcome (set_freq (Int 0, Int 5)) (after (set_samp_rate (Int 1000000)) detuned) = Ok tt /\
  consistent (run_all [Set_samp_rate (Int 1000000); Set_freq (Int 0, Int 5)] detuned).
Proof.
  split; [intros (H & _); vm_compute in H; discriminate H |].
  split; [vm_compute; reflexivity |].
  split; [vm_compute; reflexivity |].
  apply (proj1 (relink_from_any_state detuned (Int 1000000) (Int 0, Int 5)));
    vm_compute; reflexivity.
Defined.

(** ** Every setter but the overriding ones keeps the derived attributes *)

Lemma run_keeps_consistent (c : call) (self : top_block) :
  assigns_derived c = false ->
  consistent self ->
  outcome (run c) self = Ok tt ->
  consistent (after (run c) self).
Proof.
  intros Hc (H1 & H2 & H3 & H4) Hret.
  destruct c; try discriminate Hc; clear Hc; revert Hret;
    unfold consistent; run_method; intro Hret; try discriminate Hret;
    repeat (apply conj); assumption.
Qed.

Lemma run_keeps_buffer (c : call) (self : top_block) :
  (forall v, c <> Set_min_output_buffer v) ->
  buffer_follows self ->
  outcome (run c) self = Ok tt ->
  buffer_follows (after (run c) self).
Proof.
  intros Hc (n & Hn & Hb) Hret. unfold buffer_follows.
  destruct c; try (exfalso; eapply Hc; reflexivity); clear Hc; revert Hret;
    run_method; intro Hret; try discriminate Hret;
    eexists; split; try eassumption; try reflexivity; assumption.
Qed.

(** X7. Every setter, apart from the five that overwrite a derived
    attribute or the buffer size with the caller's value, keeps the derived
    quantities and [min_output_buffer = int(packet_len*2)] in agreement with
    the parameters when it returns; so does every sequence of such calls. *)
Theorem session_keeps_derived (cs : list call) (self : top_block) :
  forallb no_override cs = true ->
  consistent self /\ buffer_follows self ->
  all_return cs self ->
  consistent (run_all cs self) /\ buffer_follows (run_all cs self).
Proof.
  revert self. induction cs as [| c cs IH]; intros self Hcs [Hs Hb] Hret; simpl in *.
  - split; assumption.
  - apply andb_prop in Hcs. destruct Hcs as [Hc Hcs]. destruct Hret as [Hr Hrs].
    apply andb_prop in Hc. destruct Hc as [Hd Hm].
    apply negb_true_iff in Hd.
    apply IH; auto. split.
    + apply run_keeps_consistent; assumption.
    + apply run_keeps_buffer; try assumption.
      intros v ->. discriminate Hm.
Qed.

Lemma session_keeps_derived_witness :
  forallb no_override session = true /\
  (consistent tb0 /\ buffer_follows tb0) /\
  all_return session tb0 /\
  consistent (run_all session tb0) /\ buffer_follows (run_all session tb0).
Proof.
  assert (H0 : consistent tb0 /\ buffer_follows tb0).
  { split; [repeat (apply conj); vm_compute; reflexivity |].
    exists 4194304. split; vm_compute; reflexivity. }
  assert (Hr : all_return session tb0) by (vm_compute; repeat (apply conj); reflexivity).
  split; [reflexivity |]. split; [exact H0 |]. split; [exact Hr |].
  apply (session_keeps_derived session tb0); [reflexivity | exact H0 | exact Hr].
Defined.

(** Each overriding setter can break the agreement. *)
Lemma overrides_break :
  (outcome (set_freq_res (Int 1)) tb0 = Ok tt /\
   ~ consistent (after (set_freq_res (Int 1)) tb0)) /\
  (outcome (set_v_res (Int 0)) tb0 = Ok tt /\
   ~ consistent (after (set_v_res (Int 0)) tb0)) /\
  (outcome (set_time_res (Int 7)) tb0 = Ok tt /\
   ~ consistent (after (set_time_res (Int 7)) tb0)) /\
  (outcome (set_range_res (Float 3.5)) tb0 = Ok tt /\
   ~ consistent (after (set_range_res (Float 3.5)) tb0)) /\
  (outcome (set_min_output_buffer (Int 5)) tb0 = Ok tt /\
   ~ buffer_follows (after (set_min_output_buffer (Int 5)) tb0)).
Proof.
  repeat (apply conj); try (vm_compute; reflexivity).
  - intros (H & _). vm_compute in H. discriminate H.
  - intros (_ & _ & H & _). vm_compute in H. discriminate H.
  - intros (_ & H & _). vm_compute in H. discriminate H.
  - intros (_ & _ & _ & H). vm_compute in H. discriminate H.
  - intros (n & Hn & Hb). vm_compute in Hn, Hb. congruence.
Qed.

(** ** Zero and NaN *)

Lemma py_float_zero (v : num) :
  is_zero_num v = true -> exists z, py_float v = Ok z /\ is_zero z = true.
Proof.
  destruct v as [z | f]; simpl; intro H.
  - apply Z.eqb_eq in H. subst z. exists 0%float. split; reflexivity.
  - exists f. split; [reflexivity | exact H].
Qed.

Lemma truediv_by_zero (a : num) (z : float) :
  is_zero z = true -> forall x, truediv a (Float z) <> Ok x.
Proof.
  intros H x. unfold truediv. destruct (py_float a); simpl; [| discriminate].
  rewrite H. discriminate.
Qed.

(** X8. A zero ([0], [0.0] or [-0.0]) is never accepted as sample rate,
    packet length, centre frequency or decimation factor: the setter raises.
    The attribute keeps the zero; for the packet length, the centre frequency
    and the decimation factor nothing else has changed, and for the sample
    rate [time_res] is still the old one. *)
Theorem zero_is_rejected (self : top_block) (v : num) :
  is_zero_num v = true ->
  (outcome (set_samp_rate v) self <> Ok tt /\
   samp_rate (vars (after (set_samp_rate v) self)) = v /\
   time_res (vars (after (set_samp_rate v) self)) = time_res (vars self)) /\
  (outcome (set_packet_len v) self <> Ok tt /\
   after (set_packet_len v) self = on_vars (assign_packet_len v) self) /\
  (outcome (set_center_freq v) self <> Ok tt /\
   after (set_center_freq v) self = on_vars (assign_center_freq v) self) /\
  (outcome (set_decim_fac v) self = Err ZeroDivisionError /\
   after (set_decim_fac v) self = on_vars (assign_decim_fac v) self).
Proof.
  intro Hv. destruct (py_float_zero v Hv) as (z & Hz & Hz0).
  assert (Ht : forall p x, time_res_expr v p <> Ok x).
  { intros p x. unfold time_res_expr. rewrite Hz. simpl.
    apply truediv_by_zero, Hz0. }
  assert (Hf : forall s x, freq_res_expr s v <> Ok x).
  { intros s x. unfold freq_res_expr. rewrite Hz. simpl.
    apply truediv_by_zero, Hz0. }
  assert (Hc : forall r x, v_res_expr r v <> Ok x).
  { intros r x. unfold v_res_expr.
    destruct (mul r (Float 3e8)) as [a |]; simpl; [| discriminate].
    destruct (truediv a (Int 2)) as [b |]; simpl; [| discriminate].
    unfold truediv. destruct (py_float b); simpl; [| discriminate].
    rewrite Hz. simpl. rewrite Hz0. discriminate. }
  assert (Hd : scalar_expr v = Err ZeroDivisionError).
  { unfold scalar_expr, truediv. rewrite Hz. simpl. rewrite Hz0. reflexivity. }
  repeat (apply conj).
  - run_method; try discriminate. exfalso. eapply Ht; eassumption.
  - run_method; reflexivity.
  - run_method; try reflexivity. exfalso. eapply Ht; eassumption.
  - run_method; try discriminate; exfalso; eapply Hf; eassumption.
  - run_method; try reflexivity; exfalso; eapply Hf; eassumption.
  - run_method; try discriminate; exfalso; eapply Hc; eassumption.
  - run_method; try reflexivity; exfalso; eapply Hc; eassumption.
  - run_method; same_results; reflexivity.
  - run_method; same_results; reflexivity.
Qed.

Lemma zero_is_rejected_witness :
  is_zero_num (Float (-0)) = true /\
  outcome (set_decim_fac (Float (-0))) tb0 = Err ZeroDivisionError.
Proof.
  split; [reflexivity |].
  apply (proj1 (proj2 (proj2 (proj2 (zero_is_rejected tb0 (Float (-0)) eq_refl))))).
Defined.

(** X9. [set_freq] with two tones whose difference is zero raises
    [ZeroDivisionError]; the tones are stored and [range_res] is not touched. *)
Theorem equal_tones_rejected (self : top_block) (f : num * num) (d : num) :
  sub (snd f) (fst f) = Ok d ->
  is_zero_num d = true ->
  outcome (set_freq f) self = Err ZeroDivisionError /\
  after (set_freq f) self = on_vars (assign_freq f) self.
Proof.
  intros Hd Hz. destruct (py_float_zero d Hz) as (z & Hf & Hz0).
  assert (H : range_res_expr f = Err ZeroDivisionError).
  { unfold range_res_expr. rewrite half_3e8. simpl. rewrite Hd. simpl.
    rewrite Hf. simpl. unfold truediv. simpl. rewrite Hz0. reflexivity. }
  split; run_method; same_results; reflexivity.
Qed.

Lemma equal_tones_rejected_witness :
  sub (Int 3000000) (Int 3000000) = Ok (Int 0) /\
  is_zero_num (Int 0) = true /\
  outcome (set_freq (Int 3000000, Int 3000000)) tb0 = Err ZeroDivisionError.
Proof.
  split; [reflexivity |]. split; [reflexivity |].
  apply (proj1 (equal_tones_rejected tb0 (Int 3000000, Int 3000000) (Int 0)
                  eq_refl eq_refl)).
Defined.

Lemma nan_div (x : float) : (nan / x)%float = nan.
Proof. apply Prim2SF_inj. rewrite div_spec. reflexivity. Qed.

Lemma div_nan (x : float) : (x / nan)%float = nan.
Proof.
  apply Prim2SF_inj. rewrite div_spec.
  change (Prim2SF nan) with S754_nan. destruct (Prim2SF x); reflexivity.
Qed.

(** X10. NaN is accepted as a sample rate: with a non-zero packet length
    and centre frequency [set_samp_rate(nan)] returns, and [freq_res],
    [v_res] and [time_res] are all NaN afterwards. *)
Theorem nan_is_accepted (self : top_block) (p c : float) :
  py_float (packet_len (vars self)) = Ok p -> is_zero p = false ->
  py_float (center_freq (vars self)) = Ok c -> is_zero c = false ->
  outcome (set_samp_rate (Float nan)) self = Ok tt /\
  freq_res (vars (after (set_samp_rate (Float nan)) self)) = Float nan /\
  v_res (vars (after (set_samp_rate (Float nan)) self)) = Float nan /\
  time_res (vars (after (set_samp_rate (Float nan)) self)) = Float nan.
Proof.
  intros Hp Hp0 Hc Hc0.
  assert (Hf : freq_res_expr (Float nan) (packet_len (vars self)) = Ok (Float nan)).
  { unfold freq_res_expr. rewrite Hp. simpl. unfold truediv. simpl.
    rewrite Hp0, nan_div. reflexivity. }
  assert (Ht : time_res_expr (Float nan) (packet_len (vars self)) = Ok (Float nan)).
  { unfold time_res_expr, truediv. simpl. rewrite Hp. simpl.
    rewrite div_nan. reflexivity. }
  assert (Hv : v_res_expr (Float nan) (center_freq (vars self)) = Ok (Float nan)).
  { unfold v_res_expr.
    change (mul (Float nan) (Float 3e8)) with (Ok (Float nan)). simpl.
    change (truediv (Float nan) (Int 2)) with (Ok (Float nan)). simpl.
    unfold truediv. simpl. rewrite Hc. simpl. rewrite Hc0, nan_div. reflexivity. }
  repeat (apply conj); run_method; same_results; reflexivity.
Qed.

Lemma nan_is_accepted_witness :
  outcome (set_samp_rate (Float nan)) tb0 = Ok tt /\
  time_res (vars (after (set_samp_rate (Float nan)) tb0)) = Float nan.
Proof.
  destruct (nan_is_accepted tb0 2097152 2.4e9 eq_refl eq_refl eq_refl eq_refl)
    as (H1 & _ & _ & H4).
  split; assumption.
Defined.

(** ** Conversions between [int] and [float] *)

Lemma binary_round_small (s : bool) (p : positive) :
  Zpos p < 2 ^ 53 ->
  exists (m : positive) (q : Z),
    binary_round prec emax s p 0 = S754_finite s m (- q) /\
    digits2_pos m = 53%positive /\ 0 <= q <= 52 /\ Zpos m = Zpos p * 2 ^ q.
Proof.
  intro Hp. pose proof (digits2_pos_le_53 p Hp) as Hd.
  unfold binary_round.
  rewrite fexp_normal by lia.
  unfold shl_align.
  destruct (Zpos (digits2_pos p) + 0 - 53 - 0) as [| d | d] eqn:E; try lia.
  - exists p, 0. rewrite binary_round_aux_exact by lia.
    repeat (apply conj); try reflexivity; lia.
  - exists (Pos.iter xO p d), (Zpos d).
    assert (Hdig : digits2_pos (Pos.iter xO p d) = 53%positive)
      by (rewrite digits2_pos_iter_xO; lia).
    rewrite binary_round_aux_exact by (assumption || lia).
    repeat (apply conj); try assumption; try lia.
    + f_equal. lia.
    + apply Zpos_iter_xO.
Qed.

Lemma valid_normal (s : bool) (m : positive) (e : Z) :
  digits2_pos m = 53%positive -> -1074 <= e <= 971 ->
  valid_binary (S754_finite s m e) = true.
Proof.
  intros Hd He. unfold valid_binary, bounded, canonical_mantissa. rewrite Hd.
  rewrite fexp_normal by lia. change (emax - prec) with 971.
  apply andb_true_intro. split; [apply Z.eqb_eq | apply Z.leb_le]; lia.
Qed.

Lemma Prim2SF_float_of_Z (n : Z) :
  - 2 ^ 53 < n < 2 ^ 53 -> n <> 0 ->
  exists (m : positive) (q : Z),
    Prim2SF (float_of_Z n) = S754_finite (n <? 0) m (- q) /\
    0 <= q <= 52 /\ Zpos m = Z.abs n * 2 ^ q.
Proof.
  intros Hn H0. unfold float_of_Z.
  destruct n as [| p | p]; try congruence; simpl binary_normalize.
  - destruct (binary_round_small false p) as (m & q & Hr & Hd & Hq & Hm); [lia |].
    exists m, q. rewrite Hr, Prim2SF_SF2Prim by (apply valid_normal; lia || assumption).
    auto.
  - destruct (binary_round_small true p) as (m & q & Hr & Hd & Hq & Hm); [lia |].
    exists m, q. rewrite Hr, Prim2SF_SF2Prim by (apply valid_normal; lia || assumption).
    auto.
Qed.

Lemma trunc_float_of_Z (n : Z) :
  - 2 ^ 53 < n < 2 ^ 53 -> trunc_SF (Prim2SF (float_of_Z n)) = Some n.
Proof.
  intro Hn. destruct (Z.eq_dec n 0) as [-> | H0]; [reflexivity |].
  destruct (Prim2SF_float_of_Z n Hn H0) as (m & q & -> & Hq & Hm).
  unfold trunc_SF. f_equal.
  assert (Hs : (if 0 <=? - q then Z.shiftl (Zpos m) (- q)
                else Z.shiftr (Zpos m) (- - q)) = Z.abs n).
  { destruct (Z.leb_spec 0 (- q)).
    - assert (q = 0) by lia. subst q. simpl in *. lia.
    - rewrite Z.shiftr_div_pow2, Z.opp_involutive, Hm by lia.
      apply Z.div_mul. apply Z.pow_nonzero; lia. }
  rewrite Hs. destruct (Z.ltb_spec n 0); lia.
Qed.

Lemma int_float_round_trip (n : Z) :
  - 2 ^ 53 < n < 2 ^ 53 ->
  py_float (Int n) = Ok (float_of_Z n) /\
  py_int (Float (float_of_Z n)) = Ok n.
Proof.
  intro Hn. split.
  - unfold py_float.
    destruct (Z.eq_dec n 0) as [-> | H0]; [reflexivity |].
    destruct (Prim2SF_float_of_Z n Hn H0) as (m & q & Hf & _).
    assert (Hi : is_infinity (float_of_Z n) = false).
    { unfold is_infinity. rewrite eqb_spec, abs_spec, Hf. reflexivity. }
    cbv zeta. rewrite Hi. reflexivity.
  - unfold py_int. rewrite trunc_float_of_Z by assumption. reflexivity.
Qed.

Lemma py_int_float (f : float) :
  (py_int (Float f) =
   if is_nan f then Err ValueError
   else if is_infinity f then Err OverflowError
   else match trunc_SF (Prim2SF f) with
        | Some z => Ok z
        | None => Err OverflowError
        end) /\
  (is_nan f = false -> is_infinity f = false ->
   exists z, py_int (Float f) = Ok z).
Proof.
  assert (H : is_nan f = false -> is_infinity f = false ->
              exists z, trunc_SF (Prim2SF f) = Some z).
  { intros Hn Hi. unfold Prim2SF. rewrite Hn, Hi.
    destruct (is_zero f); [eexists; reflexivity |].
    destruct (Z.frexp f) as [r e].
    destruct (shr_fexp prec emax _ _ _) as [sh e'].
    destruct (shr_m sh); eexists; reflexivity. }
  unfold py_int. split.
  - destruct (is_nan f) eqn:Hn.
    + unfold Prim2SF. rewrite Hn. reflexivity.
    + destruct (is_infinity f) eqn:Hi.
      * unfold Prim2SF. rewrite Hn, Hi.
        destruct (is_zero f) eqn:Hz; [| reflexivity].
        exfalso. unfold is_zero, is_infinity in *.
        rewrite eqb_spec in Hz. rewrite eqb_spec, abs_spec in Hi.
        change (Prim2SF zero) with (S754_zero false) in Hz.
        change (Prim2SF infinity) with (S754_infinity false) in Hi.
        destruct (Prim2SF f) as [[] | [] | | [] ? ?]; cbv in Hz, Hi;
          first [discriminate Hz | discriminate Hi].
      * destruct (trunc_SF (Prim2SF f)); reflexivity.
  - intros Hn Hi. destruct (H Hn Hi) as (z & Hz). exists z. rewrite Hz. reflexivity.
Qed.

(** ** The setters that convert their argument *)

(** X11. [set_delay_samp] and [set_samp_protect] raise [ValueError] on
    NaN and [OverflowError] on an infinity, and return on every other float;
    when they raise the attribute holds the value and no block was touched. *)
Theorem int_argument_edges (self : top_block) (f : float) :
  (is_nan f = true ->
   outcome (set_delay_samp (Float f)) self = Err ValueError /\
   outcome (set_samp_protect (Float f)) self = Err ValueError) /\
  (is_nan f = false -> is_infinity f = true ->
   outcome (set_delay_samp (Float f)) self = Err OverflowError /\
   outcome (set_samp_protect (Float f)) self = Err OverflowError) /\
  (is_nan f = false -> is_infinity f = false ->
   outcome (set_delay_samp (Float f)) self = Ok tt /\
   outcome (set_samp_protect (Float f)) self = Ok tt) /\
  (outcome (set_delay_samp (Float f)) self <> Ok tt ->
   after (set_delay_samp (Float f)) self = on_vars (assign_delay_samp (Float f)) self) /\
  (outcome (set_samp_protect (Float f)) self <> Ok tt ->
   after (set_samp_protect (Float f)) self
   = on_vars (assign_samp_protect (Float f)) self).
Proof.
  destruct (py_int_float f) as [Hi Hok].
  repeat (apply conj).
  - intro Hn. rewrite Hn in Hi. split; run_method; same_results; reflexivity.
  - intros Hn Hf. rewrite Hn, Hf in Hi. split; run_method; same_results; reflexivity.
  - intros Hn Hf. destruct (Hok Hn Hf) as (z & Hz).
    split; run_method; same_results; reflexivity.
  - run_method; intro H; [exfalso; apply H |]; reflexivity.
  - run_method; intro H; [exfalso; apply H |]; reflexivity.
Qed.

Lemma int_argument_edges_witness :
  is_nan nan = true /\
  outcome (set_delay_samp (Float nan)) tb0 = Err ValueError /\
  is_infinity neg_infinity = true /\
  outcome (set_samp_protect (Float neg_infinity)) tb0 = Err OverflowError /\
  outcome (set_delay_samp (Float 33.9)) tb0 = Ok tt /\
  after (set_delay_samp (Float nan)) tb0 = on_vars (assign_delay_samp (Float nan)) tb0.
Proof.
  split; [reflexivity |].
  split; [apply (proj1 (int_argument_edges tb0 nan)); reflexivity |].
  split; [reflexivity |].
  split; [apply (proj1 (proj2 (int_argument_edges tb0 neg_infinity))); reflexivity |].
  split; [apply (proj1 (proj2 (proj2 (int_argument_edges tb0 33.9)))); reflexivity |].
  apply (proj1 (proj2 (proj2 (proj2 (int_argument_edges tb0 nan))))).
  vm_compute. discriminate.
Defined.

(** ** The sliders *)

(** X12. Every integer position of every slider is accepted: the slot
    returns, the attribute holds the float, and the running block holds the
    value, as the same integer for the delay and the guard count. *)
Theorem every_slider_position (w : RangeWidget) (n : Z) (self : top_block) :
  In w widgets ->
  r_minimum (w_range w) <= n <= r_maximum (w_range w) ->
  outcome (slide w n) self = Ok tt /\
  control_attr (w_slot w) (vars (after (slide w n) self)) = Float (float_of_Z n) /\
  block_value (w_slot w) (graph (after (slide w n) self))
  = Some (match w_slot w with
          | Delay_samp | Samp_protect => Int n
          | _ => Float (float_of_Z n)
          end).
Proof.
  intros Hw Hn. simpl in Hw.
  assert (Hrt : 0 <= n <= 100 -> py_int (Float (float_of_Z n)) = Ok n).
  { intro H. apply int_float_round_trip. lia. }
  destruct Hw as [<- | [<- | [<- | [<- | [<- | []]]]]]; simpl in Hn;
    unfold slide; simpl w_slot; simpl control_setter; simpl control_attr;
    simpl block_value; try specialize (Hrt Hn);
    repeat (apply conj); run_method; same_results; reflexivity.
Qed.

Lemma every_slider_position_witness :
  In _delay_samp_win widgets /\
  r_minimum (w_range _delay_samp_win) <= 57 <= r_maximum (w_range _delay_samp_win) /\
  outcome (slide _delay_samp_win 57) tb0 = Ok tt /\
  et_num_delay_samps (radar_usrp_echotimer_cc_0
                        (graph (after (slide _delay_samp_win 57) tb0))) = 57.
Proof.
  assert (Hin : In _delay_samp_win widgets) by (simpl; tauto).
  assert (Hn : r_minimum (w_range _delay_samp_win) <= 57
               <= r_maximum (w_range _delay_samp_win)) by (simpl; lia).
  destruct (every_slider_position _delay_samp_win 57 tb0 Hin Hn) as (H1 & _ & H3).
  split; [exact Hin |]. split; [exact Hn |]. split; [exact H1 |].
  simpl in H3. congruence.
Defined.


(** ** Attributes and running blocks in step *)

Lemma run_keeps_in_step (c : call) (self : top_block) :
  in_step self -> in_step (after (run c) self).
Proof.
  unfold in_step. intros (H1 & H2 & H3).
  destruct c; run_method; repeat (apply conj); auto.
Qed.

Lemma run_keeps_in_step_converted (c : call) (self : top_block) :
  in_step_converted self ->
  outcome (run c) self = Ok tt ->
  in_step_converted (after (run c) self).
Proof.
  unfold in_step_converted. intros (H1 & H2 & H3 & H4) Hret.
  destruct c; revert Hret; run_method; intro Hret; try discriminate Hret;
    repeat (apply conj); auto; congruence.
Qed.

(** X13. The threshold and the two gains of the running blocks equal the
    attributes after every sequence of calls; the delay, the guard count and
    the two length scalars equal the converted attributes after every
    sequence of calls that all return. *)
Theorem blocks_in_step (cs : list call) (self : top_block) :
  (in_step self -> in_step (run_all cs self)) /\
  (in_step_converted self -> all_return cs self ->
   in_step_converted (run_all cs self)).
Proof.
  revert self. induction cs as [| c cs IH]; intro self; simpl.
  - split; auto.
  - split.
    + intro H. apply IH, run_keeps_in_step, H.
    + intros H [Hr Hrs]. apply IH; [apply run_keeps_in_step_converted |]; assumption.
Qed.

Lemma blocks_in_step_witness :
  in_step tb0 /\ in_step_converted tb0 /\ all_return session tb0 /\
  in_step (run_all session tb0) /\ in_step_converted (run_all session tb0).
Proof.
  assert (H1 : in_step tb0) by (repeat (apply conj); vm_compute; reflexivity).
  assert (H2 : in_step_converted tb0) by (repeat (apply conj); vm_compute; reflexivity).
  assert (Hr : all_return session tb0) by (vm_compute; repeat (apply conj); reflexivity).
  split; [exact H1 |]. split; [exact H2 |]. split; [exact Hr |].
  split.
  - apply (proj1 (blocks_in_step session tb0)), H1.
  - apply (proj2 (blocks_in_step session tb0)); assumption.
Defined.
